(** * A shallow embedding of [generate.py] (gtoc-forum)

    The script turns a tree [docs/<year>/<subfolder>/index.md] into one HTML
    page.  This file embeds the parts that decide what goes on the page:
    the year collector [get_year_folders], the year index parser
    [parse_year_index], the Markdown title/body split [parse_md_file], the
    subfolder ordering and the per-year / per-section loop of [main].

    Python [str] values are modelled as their lists of Unicode code points
    ([text]); comparisons of [str] are code-point lexicographic, as in
    CPython.  The character classes [str.isspace] (also the class of the
    regular expression escape [\s]) and [str.isdigit] are written out as the
    code-point ranges of CPython 3.11 (Unicode 14.0). *)

From Stdlib Require Import ZArith List Bool Lia String Ascii.
From Stdlib Require Import Sorting.Permutation Sorting.Sorted.
Import ListNotations.
Open Scope Z_scope.

(** ** Text *)

Definition text := list Z.

(** ASCII literal of the source as a [text]. *)
Definition str (s : string) : text :=
  map (fun a => Z.of_nat (nat_of_ascii a)) (list_ascii_of_string s).

Arguments str s%_string.

Fixpoint text_eqb (a b : text) : bool :=
  match a, b with
  | [], [] => true
  | x :: a', y :: b' => (x =? y) && text_eqb a' b'
  | _, _ => false
  end.

Definition in_ranges (rs : list (Z * Z)) (c : Z) : bool :=
  existsb (fun r => (fst r <=? c) && (c <=? snd r)) rs.

(** [str.isspace] on one character; [re]'s [\s] is the same class. *)
Definition space_ranges : list (Z * Z) :=
  [(9, 13); (28, 32); (133, 133); (160, 160); (5760, 5760); (8192, 8202);
   (8232, 8233); (8239, 8239); (8287, 8287); (12288, 12288)].

Definition isspace_char (c : Z) : bool := in_ranges space_ranges c.

(** [str.isdigit] on one character: Numeric_Type Digit or Decimal. *)
Definition digit_ranges : list (Z * Z) :=
  [(48, 57); (178, 179); (185, 185); (1632, 1641); (1776, 1785); (1984, 1993);
   (2406, 2415); (2534, 2543); (2662, 2671); (2790, 2799); (2918, 2927);
   (3046, 3055); (3174, 3183); (3302, 3311); (3430, 3439); (3558, 3567);
   (3664, 3673); (3792, 3801); (3872, 3881); (4160, 4169); (4240, 4249);
   (4969, 4977); (6112, 6121); (6160, 6169); (6470, 6479); (6608, 6618);
   (6784, 6793); (6800, 6809); (6992, 7001); (7088, 7097); (7232, 7241);
   (7248, 7257); (8304, 8304); (8308, 8313); (8320, 8329); (9312, 9320);
   (9332, 9340); (9352, 9360); (9450, 9450); (9461, 9469); (9471, 9471);
   (10102, 10110); (10112, 10120); (10122, 10130); (42528, 42537);
   (43216, 43225); (43264, 43273); (43472, 43481); (43504, 43513);
   (43600, 43609); (44016, 44025); (65296, 65305); (66720, 66729);
   (68160, 68163); (68912, 68921); (69216, 69224); (69714, 69722);
   (69734, 69743); (69872, 69881); (69942, 69951); (70096, 70105);
   (70384, 70393); (70736, 70745); (70864, 70873); (71248, 71257);
   (71360, 71369); (71472, 71481); (71904, 71913); (72016, 72025);
   (72784, 72793); (73040, 73049); (73120, 73129); (92768, 92777);
   (92864, 92873); (93008, 93017); (120782, 120831); (123200, 123209);
   (123632, 123641); (125264, 125273); (127232, 127242); (130032, 130041)].

Definition isdigit_char (c : Z) : bool := in_ranges digit_ranges c.

(** [s.isdigit()]: non-empty and every character a digit. *)
Definition isdigit (s : text) : bool :=
  match s with
  | [] => false
  | _ => forallb isdigit_char s
  end.

(** [s.lstrip()], [s.rstrip()], [s.strip()] with no argument. *)
Fixpoint lstrip (s : text) : text :=
  match s with
  | c :: r => if isspace_char c then lstrip r else s
  | [] => []
  end.

Definition rstrip (s : text) : text := rev (lstrip (rev s)).

Definition strip (s : text) : text := rstrip (lstrip s).

(** [s.lstrip(chars)]. *)
Fixpoint lstrip_chars (chars s : text) : text :=
  match s with
  | c :: r => if existsb (Z.eqb c) chars then lstrip_chars chars r else s
  | [] => []
  end.

(** [s.startswith(p)]. *)
Fixpoint startswith (s p : text) {struct p} : bool :=
  match p, s with
  | [], _ => true
  | c :: p', d :: s' => (c =? d) && startswith s' p'
  | _ :: _, [] => false
  end.

(** [a < b] on [str]: code-point lexicographic order. *)
Fixpoint str_lt (a b : text) : bool :=
  match a, b with
  | [], [] => false
  | [], _ :: _ => true
  | _ :: _, [] => false
  | x :: a', y :: b' =>
      if x <? y then true else if y <? x then false else str_lt a' b'
  end.

Definition str_le (a b : text) : bool := negb (str_lt b a).

(** ** Python list operations *)

(** [x in l]. *)
Definition mem (x : text) (l : list text) : bool := existsb (text_eqb x) l.

(** [l.remove(x)]: drops the first occurrence (only called when [x in l]). *)
Fixpoint remove_first (x : text) (l : list text) : list text :=
  match l with
  | [] => []
  | y :: l' => if text_eqb x y then l' else y :: remove_first x l'
  end.

(** Non-decreasing and non-increasing lists of names. *)
Definition ascending (l : list text) : Prop :=
  Sorted (fun a b => str_le a b = true) l.

Definition descending (l : list text) : Prop :=
  Sorted (fun a b => str_le b a = true) l.

(** [sorted(l)]: the names sorted here are directory entries, pairwise
    distinct, so any sorting algorithm gives CPython's result; we use an
    insertion sort. *)
Fixpoint insert_sorted (x : text) (l : list text) : list text :=
  match l with
  | [] => [x]
  | y :: l' => if str_lt y x then y :: insert_sorted x l' else x :: l
  end.

Fixpoint py_sorted (l : list text) : list text :=
  match l with
  | [] => []
  | x :: l' => insert_sorted x (py_sorted l')
  end.

(** [sorted(l, reverse=True)] on distinct names. *)
Fixpoint insert_sorted_desc (x : text) (l : list text) : list text :=
  match l with
  | [] => [x]
  | y :: l' => if str_lt x y then y :: insert_sorted_desc x l' else x :: l
  end.

Fixpoint py_sorted_desc (l : list text) : list text :=
  match l with
  | [] => []
  | x :: l' => insert_sorted_desc x (py_sorted_desc l')
  end.

(** [list(dict.fromkeys(l))]: keys in order of first insertion. *)
Fixpoint dict_fromkeys_aux (seen : list text) (l : list text) : list text :=
  match l with
  | [] => []
  | x :: l' =>
      if mem x seen then dict_fromkeys_aux seen l'
      else x :: dict_fromkeys_aux (x :: seen) l'
  end.

Definition dict_fromkeys (l : list text) : list text := dict_fromkeys_aux [] l.

(** ** [ORDER_LIST_PATTERN = re.compile(r'^\s*-\s*\[(.*?)\]\((.*?)\)\s*$')]

    A backtracking matcher for this one pattern, as [re.match] runs it: the
    lazy groups try the shortest extent first and grow one character at a
    time ([.] refuses a newline); [\s*$] accepts exactly a remainder made of
    whitespace. *)

Definition re_dot (c : Z) : bool := negb (c =? 10).

(** [\)\s*$] *)
Definition re_close_tail (r : text) : bool :=
  match r with
  | 41 :: rest => forallb isspace_char rest
  | _ => false
  end.

(** [(.*?)\)\s*$] *)
Fixpoint re_group2 (acc : text) (r : text) : option text :=
  if re_close_tail r then Some (rev acc)
  else match r with
       | c :: r' => if re_dot c then re_group2 (c :: acc) r' else None
       | [] => None
       end.

(** [(.*?)\]\((.*?)\)\s*$] *)
Fixpoint re_group1 (acc : text) (r : text) : option (text * text) :=
  match match r with
        | 93 :: 40 :: r' => re_group2 [] r'
        | _ => None
        end with
  | Some g2 => Some (rev acc, g2)
  | None =>
      match r with
      | c :: r' => if re_dot c then re_group1 (c :: acc) r' else None
      | [] => None
      end
  end.

(** [ORDER_LIST_PATTERN.match(s)], returning [(group(1), group(2))]; the
    greedy [\s*] before [-] and before [\[] never needs to give back a
    character, since neither [-] nor [\[] is whitespace. *)
Definition order_list_match (s : text) : option (text * text) :=
  match lstrip s with
  | 45 :: r =>
      match lstrip r with
      | 91 :: r' => re_group1 [] r'
      | _ => None
      end
  | _ => None
  end.

(** ** Files *)

(** [f.readlines()] on the decoded text (universal newlines already turned
    every line break into ["\n"]): lines keep their terminator. *)
Fixpoint readlines_acc (acc : text) (s : text) : list text :=
  match s with
  | [] => match acc with [] => [] | _ => [rev acc] end
  | c :: s' =>
      if c =? 10 then rev (c :: acc) :: readlines_acc [] s'
      else readlines_acc (c :: acc) s'
  end.

Definition readlines (s : text) : list text := readlines_acc [] s.

(** The file system as the script sees it: a path is the list of its
    components ([os.path.join]); a file whose content cannot be read or
    decoded as UTF-8 has content [None]; a directory that cannot be listed
    has listing [None]. *)
Definition path := list text.

Inductive entry :=
| Missing
| File (content : option text)
| Dir (listing : option (list text)).

Definition fs_t := path -> entry.

(** [os.path.exists] and [os.path.isdir]. *)
Definition path_exists (fs : fs_t) (p : path) : bool :=
  match fs p with Missing => false | _ => true end.

Definition path_isdir (fs : fs_t) (p : path) : bool :=
  match fs p with Dir _ => true | _ => false end.

(** [open(p, "r", encoding="utf-8").readlines()]; [None] when it raises. *)
Definition read_lines (fs : fs_t) (p : path) : option (list text) :=
  match fs p with
  | File (Some t) => Some (readlines t)
  | _ => None
  end.

(** The messages the script prints. *)
Inductive diag :=
| InputDirMissing (input_dir : text)
| NoYearFolders (input_dir : text)
| YearIndexMissing (year : text)
| YearIndexParsed (year tab : text) (order : list text)
| YearIndexFailed (year : text)
| DeclaredSubfolderMissing (year sf : text)
| SectionIndexMissing (year sf : text)
| SectionParsed (year sf title : text) (topics : Z)
| SectionFailed (year sf : text)
| TopicCountFailed (p : path)
| HtmlWritten (total : Z)
| HtmlFailed.

Definition index_md : text := str "index.md".

(** ** [get_year_folders]

    Returns the year names; the script returns [os.path.join(input_dir,
    name)], whose basename is the sort key. [os.listdir] raises ([None]) on
    a path that is not a listable directory. *)
Definition get_year_folders (fs : fs_t) (input_dir : text) : option (list text) :=
  match fs [input_dir] with
  | Dir (Some names) =>
      Some (py_sorted_desc
              (filter (fun name => path_isdir fs [input_dir; name] && isdigit name)
                 names))
  | _ => None
  end.

(** ** [parse_year_index] *)

Record year_index_state := mk_yis {
  yi_title_found : bool;
  yi_tab_name : text;
  yi_subfolder_order : list text
}.

(** One iteration of the [for line in lines] loop. *)
Definition year_index_step (st : year_index_state) (line : text) : year_index_state :=
  let line_stripped := strip line in
  if negb (yi_title_found st) && startswith line_stripped (str "# ") then
    mk_yis true (strip (lstrip_chars (str "# ") line_stripped)) (yi_subfolder_order st)
  else
    match order_list_match line_stripped with
    | Some (_, g2) =>
        let subfolder_name := strip g2 in
        match subfolder_name with
        | [] => st
        | _ => mk_yis (yi_title_found st) (yi_tab_name st)
                 (yi_subfolder_order st ++ [subfolder_name])
        end
    | None => st
    end.

(** The body of the [try] once the lines are read. *)
Definition parse_year_index_lines (default_tab_name : text) (lines : list text)
  : text * list text :=
  let st := fold_left year_index_step lines (mk_yis false default_tab_name []) in
  (yi_tab_name st, dict_fromkeys (yi_subfolder_order st)).

Definition parse_year_index (fs : fs_t) (input_dir year_name : text)
  : text * list text * list diag :=
  let index_md_path := [input_dir; year_name; index_md] in
  let default_tab_name := year_name in
  if negb (path_exists fs index_md_path) then
    (default_tab_name, [], [YearIndexMissing year_name])
  else
    match read_lines fs index_md_path with
    | Some lines =>
        let '(tab_name, subfolder_order) := parse_year_index_lines default_tab_name lines in
        (tab_name, subfolder_order, [YearIndexParsed year_name tab_name subfolder_order])
    | None => (default_tab_name, [], [YearIndexFailed year_name])
    end.

(** ** Title/body split of [parse_md_file] *)

(** ["未命名卡片"] ("untitled card"), the fallback title. *)
Definition untitled_card : text := [26410; 21629; 21517; 21345; 29255].

Record md_state := mk_mds {
  md_title_found : bool;
  md_title : text;
  md_content_lines : list text
}.

Definition md_step (st : md_state) (line : text) : md_state :=
  let line_stripped := strip line in
  if negb (md_title_found st) && startswith line_stripped (str "# ") then
    mk_mds true (strip (lstrip_chars (str "# ") line_stripped)) (md_content_lines st)
  else
    mk_mds (md_title_found st) (md_title st) (md_content_lines st ++ [line]).

Definition split_title (lines : list text) : text * list text :=
  let st := fold_left md_step lines (mk_mds false untitled_card []) in
  (md_title st, md_content_lines st).

(** [count_topics_in_md] *)
Definition count_topics_in_md (fs : fs_t) (md_path : path) : Z * list diag :=
  match read_lines fs md_path with
  | Some lines =>
      (Z.of_nat (List.length (filter (fun line => startswith (strip line) (str "- ")) lines)), [])
  | None => (0, [TopicCountFailed md_path])
  end.

(** ** Step 3.3 of [main]: ordering the subfolders of one year *)

(** The [for sf in subfolder_order] loop: the subfolders placed, what is
    left of [all_subfolders], and the warnings printed. *)
Fixpoint place_declared (year_name : text) (subfolder_order all_subfolders : list text)
  : list text * list text * list diag :=
  match subfolder_order with
  | [] => ([], all_subfolders, [])
  | sf :: order' =>
      if mem sf all_subfolders then
        let '(placed, rest, warns) :=
          place_declared year_name order' (remove_first sf all_subfolders) in
        (sf :: placed, rest, warns)
      else
        let '(placed, rest, warns) := place_declared year_name order' all_subfolders in
        (placed, rest, DeclaredSubfolderMissing year_name sf :: warns)
  end.

(** [ordered_subfolders += sorted(all_subfolders)] *)
Definition resolve_order (year_name : text) (subfolder_order all_subfolders : list text)
  : list text * list diag :=
  let '(placed, rest, warns) := place_declared year_name subfolder_order all_subfolders in
  (placed ++ py_sorted rest, warns).

(** Step 3.2: [os.scandir(year_folder)], keeping non-hidden directories;
    [None] when the scan raises. *)
Definition scan_subfolders (fs : fs_t) (input_dir year_name : text) : option (list text) :=
  match fs [input_dir; year_name] with
  | Dir (Some items) =>
      Some (filter (fun name => path_isdir fs [input_dir; year_name; name]
                                && negb (startswith name (str "."))) items)
  | _ => None
  end.

Definition card := (text * text)%type.

Record year_entry := mk_year {
  ye_folder : text;
  ye_tab_name : text;
  ye_subfolder_order : list text;
  ye_cards : list card
}.

Inductive run_outcome :=
| Stopped
| Crashed
| OutputWritten (year_data : list year_entry) (total_topics : Z)
| OutputFailed.

Section Pipeline.

(** [markdown.markdown(text, extensions=["fenced_code", "tables"])];
    [None] when the library raises. *)
Variable markdown : text -> option text.

(** [generate_html(year_data, total_topics)] followed by the write to
    [OUTPUT_HTML]; [false] when either raises. *)
Variable write_output : list year_entry -> Z -> bool.

Definition parse_md_file (fs : fs_t) (md_path : path) : option (text * text) :=
  match read_lines fs md_path with
  | None => None
  | Some lines =>
      let '(title, content_lines) := split_title lines in
      match markdown (List.concat content_lines) with
      | Some content_html => Some (title, content_html)
      | None => None
      end
  end.

(** Step 3.4: the [for sf_name in ordered_subfolders] loop, threading the
    cards of the year, [total_topics] and the printed messages. *)
Fixpoint process_sections (fs : fs_t) (input_dir year_name : text)
  (ordered : list text) (cards : list card) (total_topics : Z) (log : list diag)
  : list card * Z * list diag :=
  match ordered with
  | [] => (cards, total_topics, log)
  | sf_name :: rest =>
      let index_md_path := [input_dir; year_name; sf_name; index_md] in
      if negb (path_exists fs index_md_path) then
        process_sections fs input_dir year_name rest cards total_topics
          (log ++ [SectionIndexMissing year_name sf_name])
      else
        match parse_md_file fs index_md_path with
        | Some (card_title, card_content) =>
            let '(topic_count, log') := count_topics_in_md fs index_md_path in
            process_sections fs input_dir year_name rest
              (cards ++ [(card_title, card_content)]) (total_topics + topic_count)
              (log ++ log' ++ [SectionParsed year_name sf_name card_title topic_count])
        | None =>
            process_sections fs input_dir year_name rest cards total_topics
              (log ++ [SectionFailed year_name sf_name])
        end
  end.

(** The body of the section loop for one subfolder on its own: the cards
    it adds, its topic count and its messages. *)
Definition section_outcome (fs : fs_t) (input_dir year_name sf_name : text)
  : list card * Z * list diag :=
  let index_md_path := [input_dir; year_name; sf_name; index_md] in
  if negb (path_exists fs index_md_path) then
    ([], 0, [SectionIndexMissing year_name sf_name])
  else
    match parse_md_file fs index_md_path with
    | Some (card_title, card_content) =>
        let '(topic_count, log') := count_topics_in_md fs index_md_path in
        ([(card_title, card_content)], topic_count,
         log' ++ [SectionParsed year_name sf_name card_title topic_count])
    | None => ([], 0, [SectionFailed year_name sf_name])
    end.

(** One iteration of [for year_folder in year_folders]; the outcome is
    [None] when an exception escapes it. *)
Definition process_year (fs : fs_t) (input_dir year_name : text) (total_topics : Z)
  : list diag * option (year_entry * Z) :=
  let '(tab_name, subfolder_order, log1) := parse_year_index fs input_dir year_name in
  match scan_subfolders fs input_dir year_name with
  | None => (log1, None)
  | Some all_subfolders =>
      let '(ordered_subfolders, log2) :=
        resolve_order year_name subfolder_order all_subfolders in
      let '(cards, total', log3) :=
        process_sections fs input_dir year_name ordered_subfolders [] total_topics [] in
      (log1 ++ log2 ++ log3,
       Some (mk_year year_name tab_name subfolder_order cards, total'))
  end.

Fixpoint process_years (fs : fs_t) (input_dir : text) (year_folders : list text)
  (year_data : list year_entry) (total_topics : Z) (log : list diag)
  : list diag * option (list year_entry * Z) :=
  match year_folders with
  | [] => (log, Some (year_data, total_topics))
  | y :: ys =>
      match process_year fs input_dir y total_topics with
      | (log', None) => (log ++ log', None)
      | (log', Some (entry, total')) =>
          process_years fs input_dir ys (year_data ++ [entry]) total' (log ++ log')
      end
  end.

Definition main (fs : fs_t) (input_dir : text) : list diag * run_outcome :=
  if negb (path_exists fs [input_dir]) then ([InputDirMissing input_dir], Stopped)
  else
    match get_year_folders fs input_dir with
    | None => ([], Crashed)
    | Some [] => ([NoYearFolders input_dir], Stopped)
    | Some year_folders =>
        match process_years fs input_dir year_folders [] 0 [] with
        | (log, None) => (log, Crashed)
        | (log, Some (year_data, total_topics)) =>
            if write_output year_data total_topics
            then (log ++ [HtmlWritten total_topics], OutputWritten year_data total_topics)
            else (log ++ [HtmlFailed], OutputFailed)
        end
    end.

End Pipeline.

(** ** [generate_html]

    The page is embedded through the decisions [generate_html] takes from
    its data: which tab buttons and tab contents it emits and in which
    order, which tab is active, the per-card icon and position (the card's
    animation delay is [idx * 0.1] seconds), the empty-year placeholder and
    the two counters.  The fixed HTML, CSS and JavaScript text around these
    values is left out. *)

(** [sorted(year_data.keys(), reverse=True, key=basename)] on the entries;
    the keys of a dict are distinct. *)
Fixpoint insert_entry_desc (e : year_entry) (l : list year_entry) : list year_entry :=
  match l with
  | [] => [e]
  | e' :: l' =>
      if str_lt (ye_folder e) (ye_folder e') then e' :: insert_entry_desc e l'
      else e :: l
  end.

Fixpoint sort_entries_desc (l : list year_entry) : list year_entry :=
  match l with
  | [] => []
  | e :: l' => insert_entry_desc e (sort_entries_desc l')
  end.

(** [s.split('/')[0]] *)
Fixpoint split_first (sep : Z) (s : text) : text :=
  match s with
  | [] => []
  | c :: r => if c =? sep then [] else c :: split_first sep r
  end.

Definition icon_map : list (text * text) :=
  [(str "QEMU", str "fa-server"); (str "Kernel", str "fa-linux");
   (str "Compiler", str "fa-code")].

(** [d.get(k, default)] on a dict given by its items. *)
Fixpoint dict_get (k : text) (d : list (text * text)) (default : text) : text :=
  match d with
  | [] => default
  | (k', v) :: d' => if text_eqb k k' then v else dict_get k d' default
  end.

Definition card_icon (card_title : text) : text :=
  dict_get (strip (split_first 47 card_title)) icon_map (str "fa-file-text-o").

Record tab_button := mk_button {
  button_year : text;
  button_active : bool;
  button_year_default : bool;
  button_label : text
}.

Inductive panel_item :=
| CardItem (idx : nat) (icon card_title card_content : text)
| EmptyState (year : text).

Record tab_content := mk_content {
  content_year : text;
  content_hidden : bool;
  content_items : list panel_item
}.

Record page := mk_page {
  page_buttons : list tab_button;
  page_contents : list tab_content;
  page_total_topics : Z;
  page_topic_areas : Z
}.

(** [for idx, (card_title, card_content) in enumerate(cards)] *)
Fixpoint card_items (idx : nat) (cards : list card) : list panel_item :=
  match cards with
  | [] => []
  | (card_title, card_content) :: rest =>
      CardItem idx (card_icon card_title) card_title card_content
        :: card_items (S idx) rest
  end.

Definition make_button (first : text) (e : year_entry) : tab_button :=
  mk_button (ye_folder e) (text_eqb (ye_folder e) first)
    (text_eqb (ye_folder e) (str "2025")) (ye_tab_name e).

Definition make_content (first : text) (e : year_entry) : tab_content :=
  mk_content (ye_folder e) (negb (text_eqb (ye_folder e) first))
    (match card_items 0 (ye_cards e) with
     | [] => [EmptyState (ye_folder e)]
     | items => items
     end).

(** [None]: the [ValueError] raised on an empty [year_data]. *)
Definition generate_html (year_data : list year_entry) (total_topics : Z) : option page :=
  match sort_entries_desc year_data with
  | [] => None
  | (first :: _) as year_folders =>
      let topic_areas :=
        fold_left (fun acc e => acc + Z.of_nat (List.length (ye_cards e))) year_folders 0 in
      Some (mk_page (map (make_button (ye_folder first)) year_folders)
                    (map (make_content (ye_folder first)) year_folders)
                    total_topics topic_areas)
  end.

(** ** Concrete file systems *)

Fixpoint path_eqb (p q : path) : bool :=
  match p, q with
  | [], [] => true
  | a :: p', b :: q' => text_eqb a b && path_eqb p' q'
  | _, _ => false
  end.

(** The tree listed by [entries]; every other path is missing. *)
Fixpoint fs_of (entries : list (path * entry)) : fs_t :=
  fun p =>
    match entries with
    | [] => Missing
    | (q, e) :: rest => if path_eqb p q then e else fs_of rest p
    end.

(** ** Readings of the spec's words, compared with the code below *)

(** "a name consisting entirely of decimal digits" *)
Definition all_decimal_digits (name : text) : bool :=
  match name with
  | [] => false
  | _ => forallb (fun c => (48 <=? c) && (c <=? 57)) name
  end.

(** "the extracted title is the stripped line with all leading '#' and
    space characters removed" *)
Definition claim_heading_title (line : text) : text :=
  lstrip_chars (str "# ") (strip line).

(** "the trimmed text inside the parentheses is appended to declaredOrder,
    including when that trimmed text is empty" *)
Definition claim_append_target (st : year_index_state) (target : text)
  : year_index_state :=
  mk_yis (yi_title_found st) (yi_tab_name st) (yi_subfolder_order st ++ [strip target]).

(** ** Link labels *)

(** [l] contains no ["]("], the separator of the two groups of
    [ORDER_LIST_PATTERN]. *)
Definition no_link_sep (l : text) : Prop :=
  ~ exists a b, l = a ++ 93 :: 40 :: b.

(** ** Concrete site trees and year data *)

Definition sample_fs : fs_t :=
  fs_of [([str "docs"], Dir (Some (map str ["2024"; "2025"; "README.md"]%string)));
         ([str "docs"; str "2025"], Dir (Some (map str ["qemu"; "kernel"]%string)));
         ([str "docs"; str "2025"; index_md],
          File (Some (str "# GTOC 2025" ++ [10] ++ str "- [Kernel](kernel)" ++ [10])));
         ([str "docs"; str "2025"; str "qemu"], Dir (Some [index_md]));
         ([str "docs"; str "2025"; str "qemu"; index_md],
          File (Some (str "# QEMU / intro" ++ [10] ++ str "- talk" ++ [10])));
         ([str "docs"; str "2025"; str "kernel"], Dir (Some []));
         ([str "docs"; str "2024"], Dir (Some []));
         ([str "docs"; str "README.md"], File (Some []))].

Definition sample_years : list year_entry :=
  [mk_year (str "2024") (str "GTOC 2024") [] [];
   mk_year (str "2025") (str "GTOC 2025") [str "qemu"]
     [(str "QEMU / intro", str "<p>QEMU</p>"); (str "Misc", str "<p>misc</p>")]].

(** * Properties *)

(** ** Equality, membership, removal *)

Lemma text_eqb_eq (a b : text) : text_eqb a b = true <-> a = b.
Proof.
  revert b; induction a as [|x a IH]; intros [|y b]; simpl;
    try (split; congruence).
  rewrite andb_true_iff, Z.eqb_eq, IH. split; [intros [-> ->]; reflexivity|].
  intros H; injection H; auto.
Qed.

Lemma text_eqb_refl (a : text) : text_eqb a a = true.
Proof. apply text_eqb_eq; reflexivity. Qed.

Lemma text_eqb_neq (a b : text) : a <> b -> text_eqb a b = false.
Proof.
  intros H. destruct (text_eqb a b) eqn:E; [|reflexivity].
  apply text_eqb_eq in E. contradiction.
Qed.

Lemma mem_In (x : text) (l : list text) : mem x l = true <-> In x l.
Proof.
  unfold mem. rewrite existsb_exists. split.
  - intros [y [Hy E]]. apply text_eqb_eq in E. subst; assumption.
  - intros H. exists x. split; [assumption|apply text_eqb_refl].
Qed.

Lemma mem_notIn (x : text) (l : list text) : mem x l = false <-> ~ In x l.
Proof.
  rewrite <- mem_In. destruct (mem x l); split; congruence.
Qed.

Lemma filter_keep_all {A} (f : A -> bool) (l : list A) :
  (forall x, In x l -> f x = true) -> filter f l = l.
Proof.
  induction l as [|y l IH]; simpl; intros H; [reflexivity|].
  rewrite H by auto. rewrite IH by auto. reflexivity.
Qed.

Lemma filter_filter_and {A} (f g : A -> bool) (l : list A) :
  filter f (filter g l) = filter (fun x => g x && f x) l.
Proof.
  induction l as [|y l IH]; simpl; [reflexivity|].
  destruct (g y) eqn:Eg, (f y) eqn:Ef; simpl; rewrite ?Ef, ?IH; reflexivity.
Qed.

(** On a list without duplicates, [l.remove(x)] is the filter [!= x]. *)
Lemma remove_first_filter (x : text) (l : list text) :
  NoDup l -> remove_first x l = filter (fun y => negb (text_eqb x y)) l.
Proof.
  induction l as [|y l IH]; simpl; intros Hnd; [reflexivity|].
  apply NoDup_cons_iff in Hnd as [Hy Hnd].
  destruct (text_eqb x y) eqn:E; simpl.
  - apply text_eqb_eq in E; subst.
    symmetry; apply filter_keep_all.
    intros z Hz. destruct (text_eqb y z) eqn:E'; [|reflexivity].
    apply text_eqb_eq in E'; subst; contradiction.
  - rewrite IH by assumption. reflexivity.
Qed.

Lemma NoDup_remove_first (x : text) (l : list text) :
  NoDup l -> NoDup (remove_first x l).
Proof.
  intros Hnd. rewrite remove_first_filter by assumption. apply NoDup_filter, Hnd.
Qed.

Lemma In_remove_first (x y : text) (l : list text) :
  NoDup l -> In y (remove_first x l) <-> In y l /\ y <> x.
Proof.
  intros Hnd. rewrite remove_first_filter, filter_In by assumption.
  destruct (text_eqb x y) eqn:E; simpl.
  - apply text_eqb_eq in E; subst. split; [intros [_ H]; discriminate|tauto].
  - split; [intros [H _]; split; [assumption|]|intros [H _]; split; auto].
    intros ->. rewrite text_eqb_refl in E. discriminate.
Qed.

(** ** Code-point order and the two sorts *)

Lemma str_lt_asym (a b : text) : str_lt a b = true -> str_lt b a = false.
Proof.
  revert b; induction a as [|x a IH]; intros [|y b]; simpl; try congruence.
  destruct (x <? y) eqn:E1; destruct (y <? x) eqn:E2;
    rewrite ?Z.ltb_lt, ?Z.ltb_ge in *; try lia; auto.
Qed.

Lemma insert_sorted_sorted (x : text) (l : list text) :
  ascending l -> ascending (insert_sorted x l).
Proof.
  unfold ascending, str_le.
  induction l as [|y l IH]; simpl; intros Hs; [repeat constructor|].
  destruct (str_lt y x) eqn:E.
  - apply Sorted_inv in Hs as [Hs Hh]. constructor; [apply IH, Hs|].
    destruct l as [|z l]; simpl.
    + constructor. rewrite (str_lt_asym _ _ E); reflexivity.
    + destruct (str_lt z x); constructor.
      * inversion Hh; assumption.
      * rewrite (str_lt_asym _ _ E); reflexivity.
  - constructor; [assumption|constructor]. rewrite E; reflexivity.
Qed.

Lemma py_sorted_sorted (l : list text) : ascending (py_sorted l).
Proof.
  induction l; simpl; [constructor|apply insert_sorted_sorted; assumption].
Qed.

Lemma insert_sorted_perm (x : text) (l : list text) :
  Permutation (insert_sorted x l) (x :: l).
Proof.
  induction l as [|y l IH]; simpl; [reflexivity|].
  destruct (str_lt y x); [|reflexivity].
  rewrite IH. apply perm_swap.
Qed.

Lemma py_sorted_perm (l : list text) : Permutation (py_sorted l) l.
Proof.
  induction l as [|x l IH]; simpl; [reflexivity|].
  rewrite insert_sorted_perm, IH. reflexivity.
Qed.

Lemma insert_sorted_desc_sorted (x : text) (l : list text) :
  descending l -> descending (insert_sorted_desc x l).
Proof.
  unfold descending, str_le.
  induction l as [|y l IH]; simpl; intros Hs; [repeat constructor|].
  destruct (str_lt x y) eqn:E.
  - apply Sorted_inv in Hs as [Hs Hh]. constructor; [apply IH, Hs|].
    destruct l as [|z l]; simpl.
    + constructor. rewrite (str_lt_asym _ _ E); reflexivity.
    + destruct (str_lt x z); constructor.
      * inversion Hh; assumption.
      * rewrite (str_lt_asym _ _ E); reflexivity.
  - constructor; [assumption|constructor]. rewrite E; reflexivity.
Qed.

Lemma py_sorted_desc_sorted (l : list text) : descending (py_sorted_desc l).
Proof.
  induction l; simpl; [constructor|apply insert_sorted_desc_sorted; assumption].
Qed.

Lemma insert_sorted_desc_perm (x : text) (l : list text) :
  Permutation (insert_sorted_desc x l) (x :: l).
Proof.
  induction l as [|y l IH]; simpl; [reflexivity|].
  destruct (str_lt x y); [|reflexivity].
  rewrite IH. apply perm_swap.
Qed.

Lemma py_sorted_desc_perm (l : list text) : Permutation (py_sorted_desc l) l.
Proof.
  induction l as [|x l IH]; simpl; [reflexivity|].
  rewrite insert_sorted_desc_perm, IH. reflexivity.
Qed.

(** ** The declared-order loop *)

Lemma place_declared_spec (year_name : text) (declared actual : list text) :
  NoDup actual -> NoDup declared ->
  place_declared year_name declared actual =
    (filter (fun sf => mem sf actual) declared,
     filter (fun sf => negb (mem sf declared)) actual,
     map (DeclaredSubfolderMissing year_name)
       (filter (fun sf => negb (mem sf actual)) declared)).
Proof.
  revert actual; induction declared as [|sf declared IH]; intros actual Hact Hdec.
  - simpl. rewrite filter_true. reflexivity.
  - apply NoDup_cons_iff in Hdec as [Hsf Hdec]. simpl.
    destruct (mem sf actual) eqn:Hm; simpl.
    + rewrite IH by (try apply NoDup_remove_first; assumption).
      assert (Hsame : forall x, In x declared ->
                mem x (remove_first sf actual) = mem x actual).
      { intros x Hx. destruct (mem x actual) eqn:E.
        - apply mem_In, In_remove_first; [assumption|].
          split; [apply mem_In; assumption|]. intros ->; contradiction.
        - apply mem_notIn. rewrite In_remove_first by assumption.
          intros [H _]. apply mem_notIn in E. contradiction. }
      f_equal; [f_equal|].
      * f_equal. apply filter_ext_in. intros x Hx. apply Hsame, Hx.
      * rewrite remove_first_filter, filter_filter_and by assumption.
        apply filter_ext. intros x. unfold mem; simpl.
        destruct (text_eqb sf x) eqn:E; simpl.
        -- apply text_eqb_eq in E; subst. rewrite text_eqb_refl. reflexivity.
        -- destruct (text_eqb x sf) eqn:E'; [|reflexivity].
           apply text_eqb_eq in E'; subst. rewrite text_eqb_refl in E.
           discriminate.
      * f_equal. apply filter_ext_in. intros x Hx. rewrite Hsame by assumption.
        reflexivity.
    + rewrite IH by assumption. f_equal. f_equal.
      apply filter_ext_in. intros x Hx.
      destruct (text_eqb x sf) eqn:E; simpl; [|reflexivity].
      apply text_eqb_eq in E; subst. apply mem_notIn in Hm. contradiction.
Qed.

(** NoDup of a concrete list of names. *)
Ltac solve_nodup :=
  cbv; repeat constructor; cbv;
  intros H; repeat (destruct H as [H|H]; [discriminate H|]); exact H.

(** ** C1: declared entries first, then the rest in ascending order *)

(** C1.  Given the actual (non-hidden) subdirectories of a year, pairwise
    distinct as names in a directory are, and a declared order without
    repetitions (as [parse_year_index] returns it, see C2), the ordering
    built by [main] is the declared identifiers that exist, in declared
    order, followed by the remaining subdirectories in ascending code-point
    order; every declared identifier that does not exist is absent from the
    ordering, and a warning naming it is printed. *)
Theorem resolve_order_declared_then_sorted (year_name : text)
  (declared actual : list text) (Hact : NoDup actual) (Hdec : NoDup declared) :
  let '(ordered, warnings) := resolve_order year_name declared actual in
  (exists rest,
     ordered = filter (fun sf => mem sf actual) declared ++ rest /\
     ascending rest /\
     Permutation rest (filter (fun sf => negb (mem sf declared)) actual)) /\
  warnings = map (DeclaredSubfolderMissing year_name)
               (filter (fun sf => negb (mem sf actual)) declared) /\
  (forall sf, In sf declared -> ~ In sf actual ->
     ~ In sf ordered /\ In (DeclaredSubfolderMissing year_name sf) warnings).
Proof.
  unfold resolve_order. rewrite place_declared_spec by assumption.
  split; [|split; [reflexivity|]].
  - eexists; split; [reflexivity|].
    split; [apply py_sorted_sorted|apply py_sorted_perm].
  - intros sf Hin Hnot. split.
    + intros H. apply in_app_or in H as [H|H].
      * apply filter_In in H as [_ H]. apply mem_In in H. contradiction.
      * apply (Permutation_in _ (py_sorted_perm _)) in H.
        apply filter_In in H as [H _]. contradiction.
    + apply in_map, filter_In. split; [assumption|].
      apply mem_notIn in Hnot. rewrite Hnot. reflexivity.
Qed.

Lemma resolve_order_declared_then_sorted_witness :
  let declared := map str ["betaTalk"; "alphaTalk"; "deltaTalk"]%string in
  let actual := map str ["gammaTalk"; "alphaTalk"; "betaTalk"]%string in
  NoDup actual /\ NoDup declared /\
  (let '(ordered, warnings) := resolve_order (str "2025") declared actual in
   (exists rest,
      ordered = filter (fun sf => mem sf actual) declared ++ rest /\
      ascending rest /\
      Permutation rest (filter (fun sf => negb (mem sf declared)) actual)) /\
   warnings = map (DeclaredSubfolderMissing (str "2025"))
                (filter (fun sf => negb (mem sf actual)) declared) /\
   (forall sf, In sf declared -> ~ In sf actual ->
      ~ In sf ordered /\ In (DeclaredSubfolderMissing (str "2025") sf) warnings)).
Proof.
  intros declared actual.
  assert (Ha : NoDup actual) by solve_nodup.
  assert (Hd : NoDup declared) by solve_nodup.
  split; [exact Ha|split; [exact Hd|]].
  exact (resolve_order_declared_then_sorted (str "2025") declared actual Ha Hd).
Defined.

(** ** [dict.fromkeys] *)

Lemma dict_fromkeys_aux_In (seen l : list text) (y : text) :
  In y (dict_fromkeys_aux seen l) -> In y l /\ ~ In y seen.
Proof.
  revert seen; induction l as [|x l IH]; simpl; intros seen H; [contradiction|].
  destruct (mem x seen) eqn:Hm.
  - apply IH in H as [H1 H2]. auto.
  - destruct H as [<-|H].
    + split; [auto|]. apply mem_notIn, Hm.
    + apply IH in H as [H1 H2]. split; [auto|]. intros H'; apply H2; right; exact H'.
Qed.

Lemma dict_fromkeys_aux_NoDup (seen l : list text) : NoDup (dict_fromkeys_aux seen l).
Proof.
  revert seen; induction l as [|x l IH]; simpl; intros seen; [constructor|].
  destruct (mem x seen); [apply IH|].
  constructor; [|apply IH].
  intros H. apply dict_fromkeys_aux_In in H as [_ H]. apply H; left; reflexivity.
Qed.

Lemma dict_fromkeys_aux_mem_ext (seen seen' l : list text) :
  (forall x, In x seen <-> In x seen') ->
  dict_fromkeys_aux seen l = dict_fromkeys_aux seen' l.
Proof.
  revert seen seen'; induction l as [|x l IH]; simpl; intros seen seen' Heq;
    [reflexivity|].
  assert (Hm : mem x seen = mem x seen').
  { destruct (mem x seen) eqn:E, (mem x seen') eqn:E'; try reflexivity.
    - apply mem_In, Heq, mem_In in E. congruence.
    - apply mem_In, Heq, mem_In in E'. congruence. }
  rewrite Hm. destruct (mem x seen'); [apply IH; assumption|].
  f_equal. apply IH. intros y; simpl; rewrite Heq; reflexivity.
Qed.

Lemma dict_fromkeys_aux_app (seen l1 l2 : list text) :
  dict_fromkeys_aux seen (l1 ++ l2) =
  dict_fromkeys_aux seen l1 ++
  dict_fromkeys_aux (rev (dict_fromkeys_aux seen l1) ++ seen) l2.
Proof.
  revert seen; induction l1 as [|x l1 IH]; simpl; intros seen; [reflexivity|].
  destruct (mem x seen); [apply IH|].
  simpl. rewrite IH, <- app_assoc. reflexivity.
Qed.

Lemma dict_fromkeys_In (l : list text) (y : text) :
  In y (dict_fromkeys l) <-> In y l.
Proof.
  split; [intros H; apply dict_fromkeys_aux_In in H as [H _]; exact H|].
  unfold dict_fromkeys. intros H. apply in_split in H as [l1 [l2 ->]].
  rewrite dict_fromkeys_aux_app. apply in_or_app.
  destruct (in_dec (list_eq_dec Z.eq_dec) y (dict_fromkeys_aux [] l1)) as [Hin|Hout];
    [left; exact Hin|right].
  simpl. rewrite app_nil_r.
  destruct (mem y (rev (dict_fromkeys_aux [] l1))) eqn:Hm.
  - apply mem_In in Hm. rewrite <- in_rev in Hm. contradiction.
  - left; reflexivity.
Qed.

(** The declared order of a year keeps the first occurrence of each
    identifier, at its place. *)
Lemma dict_fromkeys_first (pre post : list text) (x : text) :
  ~ In x pre ->
  dict_fromkeys (pre ++ x :: post) =
  dict_fromkeys pre ++ x :: dict_fromkeys_aux (x :: rev (dict_fromkeys pre)) post.
Proof.
  intros Hx. unfold dict_fromkeys at 1. rewrite dict_fromkeys_aux_app.
  rewrite app_nil_r. simpl. fold (dict_fromkeys pre).
  destruct (mem x (rev (dict_fromkeys pre))) eqn:Hm.
  - apply mem_In in Hm. rewrite <- in_rev, dict_fromkeys_In in Hm. contradiction.
  - reflexivity.
Qed.

Lemma parse_year_index_NoDup (fs : fs_t) (input_dir year_name : text) :
  NoDup (snd (fst (parse_year_index fs input_dir year_name))).
Proof.
  unfold parse_year_index, parse_year_index_lines.
  destruct (negb (path_exists fs _)); [constructor|].
  destruct (read_lines fs _); [apply dict_fromkeys_aux_NoDup|constructor].
Qed.

Lemma resolve_order_NoDup (year_name : text) (declared actual : list text) :
  NoDup actual -> NoDup declared ->
  NoDup (fst (resolve_order year_name declared actual)).
Proof.
  intros Hact Hdec. unfold resolve_order.
  rewrite place_declared_spec by assumption. simpl.
  apply NoDup_app.
  - apply NoDup_filter, Hdec.
  - eapply Permutation_NoDup; [symmetry; apply py_sorted_perm|].
    apply NoDup_filter, Hact.
  - intros a Ha Hb. apply filter_In in Ha as [Ha _].
    apply (Permutation_in _ (py_sorted_perm _)), filter_In in Hb as [_ Hb].
    apply mem_In in Ha. rewrite Ha in Hb. discriminate.
Qed.

(** ** C2: no identifier twice *)

(** C2 (as amended).  For every year the final ordering has no identifier
    twice.  An identifier repeated in the collected list [raw] of declared
    targets (de-duplicated by [dict.fromkeys]) appears exactly once when it
    names an existing subdirectory, at the place of its first declared
    occurrence: after exactly the existing identifiers declared before that
    occurrence.  An identifier naming no existing subdirectory does not
    appear at all. *)
Theorem resolved_order_first_occurrence (fs : fs_t) (input_dir year_name : text)
  (raw actual : list text) (Hact : NoDup actual) :
  NoDup (fst (resolve_order year_name
                (snd (fst (parse_year_index fs input_dir year_name))) actual)) /\
  let ordered := fst (resolve_order year_name (dict_fromkeys raw) actual) in
  NoDup ordered /\
  (forall x, In x raw -> ~ In x actual -> ~ In x ordered) /\
  (forall pre x post, raw = pre ++ x :: post -> ~ In x pre -> In x actual ->
     exists tail,
       ordered = filter (fun sf => mem sf actual) (dict_fromkeys pre) ++ x :: tail /\
       ~ In x (filter (fun sf => mem sf actual) (dict_fromkeys pre)) /\
       ~ In x tail).
Proof.
  split; [apply resolve_order_NoDup; [exact Hact|apply parse_year_index_NoDup]|].
  assert (Hdec : NoDup (dict_fromkeys raw)) by apply dict_fromkeys_aux_NoDup.
  split; [apply resolve_order_NoDup; assumption|].
  unfold resolve_order. rewrite place_declared_spec by assumption. simpl.
  split.
  - intros x Hraw Hnot H. apply in_app_or in H as [H|H].
    + apply filter_In in H as [_ H]. apply mem_In in H. contradiction.
    + apply (Permutation_in _ (py_sorted_perm _)), filter_In in H as [H _].
      contradiction.
  - intros pre x post -> Hpre Hx.
    rewrite dict_fromkeys_first by assumption.
    rewrite filter_app. simpl.
    replace (mem x actual) with true by (symmetry; apply mem_In; exact Hx).
    eexists; split; [rewrite <- app_assoc; reflexivity|]. split.
    + intros H. apply filter_In in H as [H _].
      apply (proj1 (dict_fromkeys_In pre x)) in H. contradiction.
    + intros H. apply in_app_or in H as [H|H].
      * apply filter_In in H as [H _]. apply dict_fromkeys_aux_In in H as [_ H].
        apply H; left; reflexivity.
      * apply (Permutation_in _ (py_sorted_perm _)), filter_In in H as [_ H].
        replace (mem x (dict_fromkeys pre ++ x :: _)) with true in H
          by (symmetry; apply mem_In, in_or_app; right; left; reflexivity).
        discriminate.
Qed.

Lemma resolved_order_first_occurrence_witness :
  let raw := map str ["betaTalk"; "alphaTalk"; "betaTalk"]%string in
  let actual := map str ["alphaTalk"; "betaTalk"]%string in
  NoDup actual /\
  (NoDup (fst (resolve_order (str "2025")
                (snd (fst (parse_year_index (fun _ => Missing) (str "docs") (str "2025"))))
                actual)) /\
   let ordered := fst (resolve_order (str "2025") (dict_fromkeys raw) actual) in
   NoDup ordered /\
   (forall x, In x raw -> ~ In x actual -> ~ In x ordered) /\
   (forall pre x post, raw = pre ++ x :: post -> ~ In x pre -> In x actual ->
      exists tail,
        ordered = filter (fun sf => mem sf actual) (dict_fromkeys pre) ++ x :: tail /\
        ~ In x (filter (fun sf => mem sf actual) (dict_fromkeys pre)) /\
        ~ In x tail)).
Proof.
  intros raw actual.
  assert (Ha : NoDup actual) by solve_nodup.
  split; [exact Ha|].
  exact (resolved_order_first_occurrence (fun _ => Missing) (str "docs") (str "2025")
           raw actual Ha).
Defined.

(** C2 as first stated fails: a repeated declared identifier that names no
    existing subdirectory appears zero times, not once. *)
Lemma resolved_order_repeated_missing_cex :
  let lines := map str ["- [A](a)"; "- [A](a)"]%string in
  yi_subfolder_order (fold_left year_index_step lines (mk_yis false (str "2025") []))
    = [str "a"; str "a"] /\
  fst (resolve_order (str "2025") (snd (parse_year_index_lines (str "2025") lines))
         [str "b"]) = [str "b"].
Proof. split; vm_compute; reflexivity. Qed.

(** ** C3: the year collector *)

(** C3 (as amended).  When the root lists [names], [get_year_folders] keeps
    exactly the listed names that are directories and satisfy
    [str.isdigit] (non-empty, every character a Unicode digit: ASCII [0]-[9]
    but also digits of other scripts and characters such as superscript
    two), with no length or range restriction, and returns them in
    descending code-point order; a name with a non-digit character never
    appears. *)
Theorem get_year_folders_isdigit_descending (fs : fs_t) (input_dir : text)
  (names : list text) (Hls : fs [input_dir] = Dir (Some names)) :
  exists years,
    get_year_folders fs input_dir = Some years /\
    (forall name, In name years <->
       In name names /\ path_isdir fs [input_dir; name] = true /\ isdigit name = true) /\
    (forall name, In name years ->
       name <> [] /\ forall c, In c name -> isdigit_char c = true) /\
    descending years /\
    Permutation years
      (filter (fun name => path_isdir fs [input_dir; name] && isdigit name) names).
Proof.
  unfold get_year_folders. rewrite Hls.
  eexists; split; [reflexivity|].
  assert (Hin : forall name,
            In name (py_sorted_desc (filter (fun name =>
               path_isdir fs [input_dir; name] && isdigit name) names)) <->
            In name names /\ path_isdir fs [input_dir; name] = true /\
            isdigit name = true).
  { intros name. split.
    - intros H. apply (Permutation_in _ (py_sorted_desc_perm _)), filter_In in H
        as [H1 H2]. apply andb_true_iff in H2. tauto.
    - intros [H1 [H2 H3]]. apply (Permutation_in _ (Permutation_sym (py_sorted_desc_perm _))).
      apply filter_In. rewrite H2, H3. auto. }
  split; [exact Hin|]. split; [|split; [apply py_sorted_desc_sorted|apply py_sorted_desc_perm]].
  intros name H. apply Hin in H as [_ [_ H]].
  destruct name as [|c0 name]; [discriminate|]. split; [discriminate|].
  unfold isdigit in H. rewrite forallb_forall in H. exact H.
Qed.

Lemma get_year_folders_isdigit_descending_witness :
  let fs := fs_of [([str "docs"], Dir (Some (map str ["2024"; "notes"; "2025"]%string)));
                   ([str "docs"; str "2024"], Dir (Some []));
                   ([str "docs"; str "2025"], Dir (Some []));
                   ([str "docs"; str "notes"], Dir (Some []))] in
  fs [str "docs"] = Dir (Some (map str ["2024"; "notes"; "2025"]%string)) /\
  exists years,
    get_year_folders fs (str "docs") = Some years /\
    (forall name, In name years <->
       In name (map str ["2024"; "notes"; "2025"]%string) /\
       path_isdir fs [str "docs"; name] = true /\ isdigit name = true) /\
    (forall name, In name years ->
       name <> [] /\ forall c, In c name -> isdigit_char c = true) /\
    descending years /\
    Permutation years
      (filter (fun name => path_isdir fs [str "docs"; name] && isdigit name)
         (map str ["2024"; "notes"; "2025"]%string)).
Proof.
  intros fs.
  assert (H : fs [str "docs"] = Dir (Some (map str ["2024"; "notes"; "2025"]%string)))
    by reflexivity.
  split; [exact H|].
  exact (get_year_folders_isdigit_descending fs (str "docs") _ H).
Defined.

(** C3 as first stated fails: a directory named with the superscript two
    (U+00B2), not a decimal digit, is kept as a year folder. *)
Lemma get_year_folders_superscript_cex :
  let fs := fs_of [([str "docs"], Dir (Some [str "2025"; [178]]));
                   ([str "docs"; str "2025"], Dir (Some []));
                   ([str "docs"; [178]], Dir (Some []))] in
  get_year_folders fs (str "docs") = Some [[178]; str "2025"] /\
  all_decimal_digits [178] = false.
Proof. split; vm_compute; reflexivity. Qed.

(** ** The title/body split *)

Lemma readlines_acc_concat (acc s : text) :
  List.concat (readlines_acc acc s) = rev acc ++ s.
Proof.
  revert acc; induction s as [|c s IH]; intros acc; simpl.
  - destruct acc as [|a acc]; simpl; [reflexivity|].
    rewrite !app_nil_r. reflexivity.
  - destruct (c =? 10); simpl; rewrite IH; simpl;
      rewrite <- app_assoc; reflexivity.
Qed.

(** [''.join(f.readlines())] gives back the text read. *)
Lemma readlines_concat (s : text) : List.concat (readlines s) = s.
Proof. unfold readlines. rewrite readlines_acc_concat. reflexivity. Qed.

Lemma startswith_app (s p : text) :
  startswith s p = true <-> exists r, s = p ++ r.
Proof.
  revert s; induction p as [|c p IH]; intros s; simpl.
  - split; [intros _; exists s; reflexivity|reflexivity].
  - destruct s as [|d s].
    + split; [discriminate|intros [r H]; discriminate].
    + rewrite andb_true_iff, Z.eqb_eq, IH. split.
      * intros [-> [r ->]]. exists r. reflexivity.
      * intros [r H]. injection H as -> ->. split; [reflexivity|exists r; reflexivity].
Qed.

Lemma md_step_other (title : text) (content : list text) (line : text) :
  startswith (strip line) (str "# ") = false ->
  md_step (mk_mds false title content) line = mk_mds false title (content ++ [line]).
Proof.
  intros H. unfold md_step. cbn [md_title_found md_title md_content_lines negb andb].
  rewrite H. reflexivity.
Qed.

Lemma md_fold_no_heading (lines : list text) (title : text) (content : list text) :
  (forall line, In line lines -> startswith (strip line) (str "# ") = false) ->
  fold_left md_step lines (mk_mds false title content) = mk_mds false title (content ++ lines).
Proof.
  revert content; induction lines as [|line lines IH]; intros content H; simpl.
  - rewrite app_nil_r. reflexivity.
  - rewrite md_step_other by (apply H; left; reflexivity).
    rewrite IH by (intros l Hl; apply H; right; exact Hl).
    rewrite <- app_assoc. reflexivity.
Qed.

Lemma md_fold_found (lines : list text) (title : text) (content : list text) :
  fold_left md_step lines (mk_mds true title content) = mk_mds true title (content ++ lines).
Proof.
  revert content; induction lines as [|line lines IH]; intros content; simpl.
  - rewrite app_nil_r. reflexivity.
  - unfold md_step at 2. simpl. rewrite IH, <- app_assoc. reflexivity.
Qed.

(** ** C4: no level-1 heading *)

(** C4.  When no line of the document starts, once stripped, with ["# "],
    [parse_md_file] returns the fixed fallback title ["未命名卡片"] (the
    placeholder the spec renders as "untitled") and hands the whole
    document, every line in its original order, to the Markdown renderer. *)
Theorem parse_md_file_no_heading (markdown : text -> option text) (fs : fs_t)
  (md_path : path) (doc : text) (Hf : fs md_path = File (Some doc))
  (Hno : forall line, In line (readlines doc) ->
           startswith (strip line) (str "# ") = false) :
  split_title (readlines doc) = (untitled_card, readlines doc) /\
  List.concat (readlines doc) = doc /\
  parse_md_file markdown fs md_path =
    option_map (fun content_html => (untitled_card, content_html)) (markdown doc).
Proof.
  assert (Hs : split_title (readlines doc) = (untitled_card, readlines doc)).
  { unfold split_title. rewrite md_fold_no_heading by exact Hno. reflexivity. }
  split; [exact Hs|split; [apply readlines_concat|]].
  unfold parse_md_file, read_lines. rewrite Hf, Hs, readlines_concat.
  destruct (markdown doc); reflexivity.
Qed.

Lemma parse_md_file_no_heading_witness :
  let doc := str "plain text" ++ [10] ++ str "- item" ++ [10] in
  let fs := fs_of [([str "a"; index_md], File (Some doc))] in
  fs [str "a"; index_md] = File (Some doc) /\
  (forall line, In line (readlines doc) ->
     startswith (strip line) (str "# ") = false) /\
  (split_title (readlines doc) = (untitled_card, readlines doc) /\
   List.concat (readlines doc) = doc /\
   parse_md_file (fun t => Some t) fs [str "a"; index_md] =
     option_map (fun content_html => (untitled_card, content_html)) (Some doc)).
Proof.
  intros doc fs.
  assert (Hf : fs [str "a"; index_md] = File (Some doc)) by reflexivity.
  assert (Hno : forall line, In line (readlines doc) ->
                  startswith (strip line) (str "# ") = false).
  { intros line H. vm_compute in H.
    destruct H as [<-|[<-|[]]]; reflexivity. }
  split; [exact Hf|split; [exact Hno|]].
  exact (parse_md_file_no_heading (fun t => Some t) fs _ doc Hf Hno).
Defined.

Lemma md_step_heading (title : text) (content : list text) (line : text) :
  startswith (strip line) (str "# ") = true ->
  md_step (mk_mds false title content) line =
    mk_mds true (strip (lstrip_chars (str "# ") (strip line))) content.
Proof.
  intros H. unfold md_step. cbn [md_title_found md_title md_content_lines negb andb].
  rewrite H. reflexivity.
Qed.

Lemma split_title_first (pre post : list text) (h : text) :
  (forall line, In line pre -> startswith (strip line) (str "# ") = false) ->
  startswith (strip h) (str "# ") = true ->
  split_title (pre ++ h :: post) =
    (strip (lstrip_chars (str "# ") (strip h)), pre ++ post).
Proof.
  intros Hpre Hh. unfold split_title.
  rewrite fold_left_app, md_fold_no_heading by exact Hpre. simpl.
  rewrite md_step_heading by exact Hh. rewrite md_fold_found. reflexivity.
Qed.

(** ** C5: only the first level-1 heading is a title *)

(** C5.  When the document's lines are [pre ++ h :: post], with [h] the
    first line that starts, once stripped, with ["# "], the title comes from
    [h] alone, [h] is left out of the body, and every line of [post] — in
    particular each later line starting with ["# "] — stays in the body, in
    order, and reaches the Markdown renderer. *)
Theorem parse_md_file_first_heading_only (markdown : text -> option text)
  (fs : fs_t) (md_path : path) (doc : text) (pre post : list text) (h : text)
  (Hf : fs md_path = File (Some doc)) (Hlines : readlines doc = pre ++ h :: post)
  (Hpre : forall line, In line pre -> startswith (strip line) (str "# ") = false)
  (Hh : startswith (strip h) (str "# ") = true) :
  split_title (readlines doc) =
    (strip (lstrip_chars (str "# ") (strip h)), pre ++ post) /\
  parse_md_file markdown fs md_path =
    option_map (fun content_html => (strip (lstrip_chars (str "# ") (strip h)), content_html))
      (markdown (List.concat (pre ++ post))).
Proof.
  assert (Hs := split_title_first pre post h Hpre Hh). rewrite <- Hlines in Hs.
  split; [exact Hs|].
  unfold parse_md_file, read_lines. rewrite Hf, Hs.
  destruct (markdown _); reflexivity.
Qed.

Lemma parse_md_file_first_heading_only_witness :
  let doc := str "intro" ++ [10] ++ str "# One" ++ [10] ++ str "body" ++ [10]
             ++ str "# Two" ++ [10] in
  let fs := fs_of [([str "a"; index_md], File (Some doc))] in
  let pre := [str "intro" ++ [10]] in
  let h := str "# One" ++ [10] in
  let post := [str "body" ++ [10]; str "# Two" ++ [10]] in
  fs [str "a"; index_md] = File (Some doc) /\
  readlines doc = pre ++ h :: post /\
  (forall line, In line pre -> startswith (strip line) (str "# ") = false) /\
  startswith (strip h) (str "# ") = true /\
  (split_title (readlines doc) =
     (strip (lstrip_chars (str "# ") (strip h)), pre ++ post) /\
   parse_md_file (fun t => Some t) fs [str "a"; index_md] =
     option_map (fun content_html => (strip (lstrip_chars (str "# ") (strip h)), content_html))
       (Some (List.concat (pre ++ post)))).
Proof.
  intros doc fs pre h post.
  assert (Hf : fs [str "a"; index_md] = File (Some doc)) by reflexivity.
  assert (Hl : readlines doc = pre ++ h :: post) by (vm_compute; reflexivity).
  assert (Hpre : forall line, In line pre -> startswith (strip line) (str "# ") = false).
  { intros line [<-|[]]. vm_compute. reflexivity. }
  assert (Hh : startswith (strip h) (str "# ") = true) by (vm_compute; reflexivity).
  split; [exact Hf|split; [exact Hl|split; [exact Hpre|split; [exact Hh|]]]].
  exact (parse_md_file_first_heading_only (fun t => Some t) fs _ doc pre post h
           Hf Hl Hpre Hh).
Defined.

(** ** C10: what counts as a level-1 heading *)

(** C10 (as amended).  In both parsers a line is a level-1 heading exactly
    when, once stripped of surrounding whitespace, it begins with ["# "]:
    ["#Title"] and ["## Title"] never are, ["   # Title"] is.  The title
    taken from it is the stripped line with all leading ['#'] and space
    characters removed and then stripped of surrounding whitespace again. *)
Theorem level1_heading_rule (line title : text) (content order : list text) :
  (startswith (strip line) (str "# ") = true <-> exists r, strip line = str "# " ++ r) /\
  md_step (mk_mds false title content) line =
    (if startswith (strip line) (str "# ")
     then mk_mds true (strip (lstrip_chars (str "# ") (strip line))) content
     else mk_mds false title (content ++ [line])) /\
  (startswith (strip line) (str "# ") = true ->
     year_index_step (mk_yis false title order) line =
       mk_yis true (strip (lstrip_chars (str "# ") (strip line))) order) /\
  (startswith (strip line) (str "# ") = false ->
     yi_title_found (year_index_step (mk_yis false title order) line) = false /\
     yi_tab_name (year_index_step (mk_yis false title order) line) = title) /\
  startswith (strip (str "#Title")) (str "# ") = false /\
  startswith (strip (str "## Title")) (str "# ") = false /\
  split_title [str "   # Title"] = (str "Title", []).
Proof.
  split; [apply startswith_app|].
  split.
  { destruct (startswith (strip line) (str "# ")) eqn:E;
      [apply md_step_heading|apply md_step_other]; exact E. }
  split.
  { intros H. unfold year_index_step.
    cbn [yi_title_found yi_tab_name yi_subfolder_order negb andb].
    rewrite H. reflexivity. }
  split.
  { intros H. unfold year_index_step.
    cbn [yi_title_found yi_tab_name yi_subfolder_order negb andb].
    rewrite H. destruct (order_list_match (strip line)) as [[g1 g2]|];
      [destruct (strip g2)|]; split; reflexivity. }
  split; [vm_compute; reflexivity|].
  split; vm_compute; reflexivity.
Qed.

(** C10 as first stated fails: after ["# "] the code strips once more, so
    a tab following the marker is not part of the title. *)
Lemma level1_heading_tab_cex :
  let line := str "# " ++ [9] ++ str "Title" in
  split_title [line] = (str "Title", []) /\
  fst (parse_year_index_lines (str "2025") [line]) = str "Title" /\
  claim_heading_title line = [9] ++ str "Title".
Proof. split; [|split]; vm_compute; reflexivity. Qed.

(** ** C6: list items of the year index *)

Lemma order_list_match_not_heading (s label target : text) :
  order_list_match s = Some (label, target) -> startswith s (str "# ") = false.
Proof.
  intros H. destruct s as [|c s]; [reflexivity|].
  change (startswith (c :: s) (str "# ")) with ((35 =? c) && startswith s [32]).
  destruct (Z.eqb_spec 35 c) as [<-|Hc]; [|reflexivity].
  unfold order_list_match in H. simpl in H. discriminate.
Qed.

(** C6 (as amended).  Whatever the state of the scan, before or after the
    heading, a line whose stripped text matches [ORDER_LIST_PATTERN] with
    link target [target] appends [strip target] to the collected order when
    it is non-empty and leaves the state unchanged when it is empty; the
    bracketed label plays no part (two such lines with the same target and
    any labels act alike).  The collected order is de-duplicated afterwards
    (see C2). *)
Theorem year_index_step_list_item (st : year_index_state) (line label target : text)
  (Hm : order_list_match (strip line) = Some (label, target)) :
  year_index_step st line =
    (if text_eqb (strip target) [] then st
     else mk_yis (yi_title_found st) (yi_tab_name st)
            (yi_subfolder_order st ++ [strip target])) /\
  (forall line' label',
     order_list_match (strip line') = Some (label', target) ->
     year_index_step st line' = year_index_step st line).
Proof.
  assert (Hgen : forall line0 label0,
            order_list_match (strip line0) = Some (label0, target) ->
            year_index_step st line0 =
              (if text_eqb (strip target) [] then st
               else mk_yis (yi_title_found st) (yi_tab_name st)
                      (yi_subfolder_order st ++ [strip target]))).
  { intros line0 label0 H0. unfold year_index_step.
    rewrite (order_list_match_not_heading _ _ _ H0), andb_false_r, H0.
    destruct (strip target); reflexivity. }
  split; [exact (Hgen line label Hm)|].
  intros line' label' H'. rewrite (Hgen line' label' H'), (Hgen line label Hm).
  reflexivity.
Qed.

Lemma year_index_step_list_item_witness :
  let st := mk_yis true (str "GTOC 2025") [str "alphaTalk"] in
  let line := str "  - [Beta talk]( betaTalk )" ++ [10] in
  order_list_match (strip line) = Some (str "Beta talk", str " betaTalk ") /\
  (year_index_step st line =
     (if text_eqb (strip (str " betaTalk ")) [] then st
      else mk_yis (yi_title_found st) (yi_tab_name st)
             (yi_subfolder_order st ++ [strip (str " betaTalk ")])) /\
   (forall line' label',
      order_list_match (strip line') = Some (label', str " betaTalk ") ->
      year_index_step st line' = year_index_step st line)).
Proof.
  intros st line.
  assert (Hm : order_list_match (strip line) = Some (str "Beta talk", str " betaTalk "))
    by (vm_compute; reflexivity).
  split; [exact Hm|].
  exact (year_index_step_list_item st line _ _ Hm).
Defined.

(** C6 as first stated fails: a list item whose target is blank is not
    appended. *)
Lemma year_index_blank_target_cex :
  let line := str "- [label]( )" in
  order_list_match (strip line) = Some (str "label", str " ") /\
  fold_left year_index_step [line] (mk_yis false (str "2025") []) =
    mk_yis false (str "2025") [] /\
  claim_append_target (mk_yis false (str "2025") []) (str " ") =
    mk_yis false (str "2025") [[]].
Proof. split; [|split]; vm_compute; reflexivity. Qed.

(** ** C7: the year index parser falls back instead of raising *)

(** C7.  [parse_year_index] always returns a tab name and an order (it has
    no failing outcome): when [index.md] is missing it returns the year
    folder name and the empty order and prints a notice; when the file
    exists but opening, reading or decoding it raises, the exception is
    caught and the same defaults are returned, with a warning. *)
Theorem parse_year_index_fallback (fs : fs_t) (input_dir year_name : text) :
  (path_exists fs [input_dir; year_name; index_md] = false ->
     parse_year_index fs input_dir year_name =
       (year_name, [], [YearIndexMissing year_name])) /\
  (path_exists fs [input_dir; year_name; index_md] = true ->
     read_lines fs [input_dir; year_name; index_md] = None ->
     parse_year_index fs input_dir year_name =
       (year_name, [], [YearIndexFailed year_name])).
Proof.
  unfold parse_year_index.
  split; intros H; rewrite H; [reflexivity|].
  intros H'. simpl. rewrite H'. reflexivity.
Qed.

(** ** C8: per-section isolation *)

Lemma process_years_crash (markdown : text -> option text)
  (fs : fs_t) (input_dir : text) (years : list text) :
  forall data total log,
  snd (process_years markdown fs input_dir years data total log) = None ->
  exists y, In y years /\ scan_subfolders fs input_dir y = None.
Proof.
  induction years as [|y years IH]; intros data total log H; simpl in H;
    [discriminate|].
  unfold process_year in H.
  destruct (parse_year_index fs input_dir y) as [[tab order] log1].
  destruct (scan_subfolders fs input_dir y) eqn:Hs.
  - destruct (resolve_order y order l) as [ordered log2].
    destruct (process_sections markdown fs input_dir y ordered [] total [])
      as [[cards total'] log3].
    apply IH in H as [y' [Hin Hy']]. exists y'. split; [right|]; assumption.
  - exists y. split; [left; reflexivity|exact Hs].
Qed.

(** C8.  The section loop treats each subfolder on its own: one iteration
    only adds that subfolder's outcome and the loop goes on with the next.
    A subfolder without [index.md] adds no card and a warning naming the
    year and the subfolder; one whose [index.md] exists but cannot be
    read, decoded or rendered adds no card and a warning.  No section makes
    the year fail: a year's processing stops with an exception only when
    its folder cannot be scanned, and the run over all years only when some
    year folder cannot be scanned. *)
Theorem section_failures_isolated (markdown : text -> option text)
  (fs : fs_t) (input_dir year_name : text) :
  (forall sf_name rest cards total log,
     process_sections markdown fs input_dir year_name (sf_name :: rest) cards total log =
       let '(c1, n1, l1) := section_outcome markdown fs input_dir year_name sf_name in
       process_sections markdown fs input_dir year_name rest
         (cards ++ c1) (total + n1) (log ++ l1)) /\
  (forall sf_name,
     path_exists fs [input_dir; year_name; sf_name; index_md] = false ->
     section_outcome markdown fs input_dir year_name sf_name =
       ([], 0, [SectionIndexMissing year_name sf_name])) /\
  (forall sf_name,
     path_exists fs [input_dir; year_name; sf_name; index_md] = true ->
     parse_md_file markdown fs [input_dir; year_name; sf_name; index_md] = None ->
     section_outcome markdown fs input_dir year_name sf_name =
       ([], 0, [SectionFailed year_name sf_name])) /\
  (forall total,
     snd (process_year markdown fs input_dir year_name total) = None <->
     scan_subfolders fs input_dir year_name = None) /\
  (forall years data total log,
     snd (process_years markdown fs input_dir years data total log) = None ->
     exists y, In y years /\ scan_subfolders fs input_dir y = None).
Proof.
  split.
  { intros sf_name rest cards total log. simpl. unfold section_outcome.
    destruct (negb (path_exists fs _)).
    - rewrite app_nil_r, Z.add_0_r. reflexivity.
    - destruct (parse_md_file markdown fs _) as [[t c]|].
      + destruct (count_topics_in_md fs _). rewrite app_assoc. reflexivity.
      + rewrite app_nil_r, Z.add_0_r. reflexivity. }
  split.
  { intros sf_name H. unfold section_outcome. rewrite H. reflexivity. }
  split.
  { intros sf_name H H'. unfold section_outcome. rewrite H, H'. reflexivity. }
  split; [|apply process_years_crash].
  intros total. unfold process_year.
  destruct (parse_year_index fs input_dir year_name) as [[tab order] log1].
  destruct (scan_subfolders fs input_dir year_name) as [l|].
  - destruct (resolve_order year_name order l) as [ordered log2].
    destruct (process_sections markdown fs input_dir year_name ordered [] total [])
      as [[cards total'] log3].
    simpl. split; discriminate.
  - simpl. split; reflexivity.
Qed.

(** ** C9: when the run stops, and the single write at the end *)

(** C9 (as amended).  A missing root stops the run with a message and no
    output; a root that exists but cannot be listed — a regular file, say,
    since only existence is checked — makes [os.listdir] raise, so the run
    ends with an uncaught exception, no message of the script's own and no
    output; a root listing no digit-named directory stops the run with a
    warning and no output.  Otherwise, once the per-year processing has
    completed, the run makes one final attempt to generate and write the
    page from the collected data; a failure there is caught and reported
    as an error instead of an output. *)
Theorem main_stops_and_single_write (markdown : text -> option text)
  (write_output : list year_entry -> Z -> bool) (fs : fs_t) (input_dir : text) :
  (fs [input_dir] = Missing ->
     main markdown write_output fs input_dir = ([InputDirMissing input_dir], Stopped)) /\
  (forall c, fs [input_dir] = File c ->
     main markdown write_output fs input_dir = ([], Crashed)) /\
  (fs [input_dir] = Dir None ->
     main markdown write_output fs input_dir = ([], Crashed)) /\
  (get_year_folders fs input_dir = Some [] ->
     main markdown write_output fs input_dir = ([NoYearFolders input_dir], Stopped)) /\
  (forall year_folders log year_data total_topics,
     get_year_folders fs input_dir = Some year_folders -> year_folders <> [] ->
     process_years markdown fs input_dir year_folders [] 0 [] =
       (log, Some (year_data, total_topics)) ->
     main markdown write_output fs input_dir =
       if write_output year_data total_topics
       then (log ++ [HtmlWritten total_topics], OutputWritten year_data total_topics)
       else (log ++ [HtmlFailed], OutputFailed)).
Proof.
  unfold main, path_exists.
  split; [intros H; rewrite H; reflexivity|].
  split; [intros c H; unfold get_year_folders; rewrite H; reflexivity|].
  split; [intros H; unfold get_year_folders; rewrite H; reflexivity|].
  assert (Hex : forall ys, get_year_folders fs input_dir = Some ys ->
                  exists names, fs [input_dir] = Dir (Some names)).
  { unfold get_year_folders. intros ys H.
    destruct (fs [input_dir]) as [|c|[names|]]; try discriminate.
    exists names; reflexivity. }
  split.
  - intros H. destruct (Hex _ H) as [names Hn]. rewrite Hn. simpl.
    rewrite H. reflexivity.
  - intros year_folders log year_data total_topics H Hne Hp.
    destruct (Hex _ H) as [names Hn]. rewrite Hn. simpl. rewrite H.
    destruct year_folders as [|y ys]; [contradiction|].
    rewrite Hp. reflexivity.
Qed.

(** C9 as first stated fails, in two ways: a root that is a regular file is
    not reported by the script (the run dies in [os.listdir]); and a run
    with a valid root and a year folder ends without an output file when
    the final generation or write raises. *)
Lemma main_file_root_and_write_failure_cex :
  main (fun t => Some t) (fun _ _ => true)
    (fs_of [([str "docs"], File (Some []))]) (str "docs") = ([], Crashed) /\
  snd (main (fun t => Some t) (fun _ _ => false)
         (fs_of [([str "docs"], Dir (Some [str "2025"]));
                 ([str "docs"; str "2025"], Dir (Some []))]) (str "docs"))
    = OutputFailed.
Proof. split; vm_compute; reflexivity. Qed.

(** * Further properties of the code *)

(** ** The ordering of a year's subfolders *)

Lemma filter_negb_perm {A} (f : A -> bool) (l : list A) :
  Permutation l (filter f l ++ filter (fun x => negb (f x)) l).
Proof.
  induction l as [|a l IH]; simpl; [reflexivity|].
  destruct (f a); simpl; [constructor; exact IH|].
  apply Permutation_cons_app. exact IH.
Qed.

Lemma resolve_order_perm_gen (year_name : text) (declared actual : list text) :
  NoDup actual -> NoDup declared ->
  Permutation (fst (resolve_order year_name declared actual)) actual.
Proof.
  intros Hact Hdec. unfold resolve_order.
  rewrite place_declared_spec by assumption. simpl.
  eapply Permutation_trans;
    [|symmetry; apply (filter_negb_perm (fun sf => mem sf declared) actual)].
  apply Permutation_app; [|apply py_sorted_perm].
  apply NoDup_Permutation; try (apply NoDup_filter; assumption).
  intros x. rewrite !filter_In, !mem_In. tauto.
Qed.

(** X1.  Whatever the year's [index.md] declares, the ordering built for a
    year holds every listed non-hidden subfolder exactly once: it is a
    permutation of them. *)
Theorem year_order_is_permutation (fs : fs_t) (input_dir year_name : text)
  (all_subfolders : list text) (Hall : NoDup all_subfolders) :
  Permutation
    (fst (resolve_order year_name (snd (fst (parse_year_index fs input_dir year_name)))
            all_subfolders))
    all_subfolders.
Proof.
  apply resolve_order_perm_gen; [exact Hall|apply parse_year_index_NoDup].
Qed.

Lemma year_order_is_permutation_witness :
  let all_subfolders := map str ["gammaTalk"; "alphaTalk"; "betaTalk"]%string in
  NoDup all_subfolders /\
  Permutation
    (fst (resolve_order (str "2025")
            (snd (fst (parse_year_index (fun _ => Missing) (str "docs") (str "2025"))))
            all_subfolders))
    all_subfolders.
Proof.
  intros all_subfolders.
  assert (H : NoDup all_subfolders) by solve_nodup.
  split; [exact H|].
  exact (year_order_is_permutation (fun _ => Missing) (str "docs") (str "2025") _ H).
Defined.

Lemma In_remove_first_incl (x y : text) (l : list text) :
  In y (remove_first x l) -> In y l.
Proof.
  induction l as [|z l IH]; simpl; [auto|].
  destruct (text_eqb x z); simpl; [auto|]. intros [H|H]; auto.
Qed.

Lemma place_declared_incl (year_name : text) (declared all_subfolders : list text) :
  let '(placed, rest, _) := place_declared year_name declared all_subfolders in
  (forall x, In x placed -> In x all_subfolders) /\
  (forall x, In x rest -> In x all_subfolders).
Proof.
  revert all_subfolders; induction declared as [|sf declared IH]; intros all; simpl.
  - split; [contradiction|auto].
  - destruct (mem sf all) eqn:Hm.
    + specialize (IH (remove_first sf all)).
      destruct (place_declared year_name declared (remove_first sf all))
        as [[placed rest] warns].
      destruct IH as [H1 H2]. split.
      * intros x [<-|Hx]; [apply mem_In; exact Hm|].
        apply In_remove_first_incl with (x := sf), H1, Hx.
      * intros x Hx. apply In_remove_first_incl with (x := sf), H2, Hx.
    + specialize (IH all).
      destruct (place_declared year_name declared all) as [[placed rest] warns].
      exact IH.
Qed.

(** X2.  Every subfolder in the ordering of a year is an entry listed in
    the year folder that is a directory and whose name does not start with
    ["."]: declaring a hidden folder, a file or an absent name in
    [index.md] never brings it into the page. *)
Theorem year_order_only_visible_dirs (fs : fs_t) (input_dir year_name : text)
  (items declared : list text) (Hls : fs [input_dir; year_name] = Dir (Some items)) :
  exists all_subfolders,
    scan_subfolders fs input_dir year_name = Some all_subfolders /\
    forall x, In x (fst (resolve_order year_name declared all_subfolders)) ->
      In x items /\ path_isdir fs [input_dir; year_name; x] = true /\
      startswith x (str ".") = false.
Proof.
  unfold scan_subfolders. rewrite Hls. eexists; split; [reflexivity|].
  intros x Hx. unfold resolve_order in Hx.
  pose proof (place_declared_incl year_name declared
     (filter (fun name => path_isdir fs [input_dir; year_name; name]
                          && negb (startswith name (str "."))) items)) as Hincl.
  destruct (place_declared year_name declared _) as [[placed rest] warns].
  destruct Hincl as [H1 H2]. simpl in Hx.
  assert (Hin : In x (filter (fun name => path_isdir fs [input_dir; year_name; name]
                              && negb (startswith name (str "."))) items)).
  { apply in_app_or in Hx as [Hx|Hx]; [apply H1, Hx|].
    apply H2, (Permutation_in _ (py_sorted_perm _)), Hx. }
  apply filter_In in Hin as [Hin Hb]. apply andb_true_iff in Hb as [Hd Hh].
  split; [exact Hin|split; [exact Hd|]]. destruct (startswith x (str ".")); easy.
Qed.

Lemma year_order_only_visible_dirs_witness :
  let fs := fs_of [([str "docs"; str "2025"],
                    Dir (Some (map str [".git"; "alphaTalk"; "notes.md"]%string)));
                   ([str "docs"; str "2025"; str ".git"], Dir (Some []));
                   ([str "docs"; str "2025"; str "alphaTalk"], Dir (Some []));
                   ([str "docs"; str "2025"; str "notes.md"], File (Some []))] in
  let items := map str [".git"; "alphaTalk"; "notes.md"]%string in
  fs [str "docs"; str "2025"] = Dir (Some items) /\
  exists all_subfolders,
    scan_subfolders fs (str "docs") (str "2025") = Some all_subfolders /\
    forall x, In x (fst (resolve_order (str "2025") (map str [".git"; "notes.md"]%string)
                            all_subfolders)) ->
      In x items /\ path_isdir fs [str "docs"; str "2025"; x] = true /\
      startswith x (str ".") = false.
Proof.
  intros fs items.
  assert (H : fs [str "docs"; str "2025"] = Dir (Some items)) by reflexivity.
  split; [exact H|].
  exact (year_order_only_visible_dirs fs (str "docs") (str "2025") items _ H).
Defined.

(** ** The year index parser *)

(** X3.  [list(dict.fromkeys(...))] as the declared order grows: a target
    already collected leaves the order unchanged, a new one goes to the
    end; the order never repeats a name and holds exactly the collected
    names. *)
Theorem dict_fromkeys_snoc (l : list text) (x : text) :
  dict_fromkeys (l ++ [x]) =
    (if mem x l then dict_fromkeys l else dict_fromkeys l ++ [x]) /\
  NoDup (dict_fromkeys l) /\
  (forall y, In y (dict_fromkeys l) <-> In y l).
Proof.
  split; [|split; [apply dict_fromkeys_aux_NoDup|apply dict_fromkeys_In]].
  unfold dict_fromkeys at 1. rewrite dict_fromkeys_aux_app, app_nil_r.
  fold (dict_fromkeys l). simpl.
  assert (Hm : mem x (rev (dict_fromkeys l)) = mem x l).
  { destruct (mem x l) eqn:E.
    - apply mem_In. rewrite <- in_rev, dict_fromkeys_In. apply mem_In, E.
    - apply mem_notIn. rewrite <- in_rev, dict_fromkeys_In. apply mem_notIn, E. }
  rewrite Hm. destruct (mem x l); [apply app_nil_r|reflexivity].
Qed.

Lemma year_index_fold_found (lines : list text) (tab : text) (order : list text) :
  yi_title_found (fold_left year_index_step lines (mk_yis true tab order)) = true /\
  yi_tab_name (fold_left year_index_step lines (mk_yis true tab order)) = tab.
Proof.
  revert order; induction lines as [|line lines IH]; intros order; simpl;
    [split; reflexivity|].
  assert (Hs : exists order',
            year_index_step (mk_yis true tab order) line = mk_yis true tab order').
  { unfold year_index_step.
    cbn [yi_title_found yi_tab_name yi_subfolder_order negb andb].
    destruct (order_list_match (strip line)) as [[g1 g2]|]; [destruct (strip g2)|];
      eexists; reflexivity. }
  destruct Hs as [o Ho]. rewrite Ho. apply IH.
Qed.

Lemma year_index_step_other (tab : text) (order : list text) (line : text) :
  startswith (strip line) (str "# ") = false ->
  exists order', year_index_step (mk_yis false tab order) line = mk_yis false tab order'.
Proof.
  intros H. unfold year_index_step.
  cbn [yi_title_found yi_tab_name yi_subfolder_order negb andb]. rewrite H.
  destruct (order_list_match (strip line)) as [[g1 g2]|]; [destruct (strip g2)|];
    eexists; reflexivity.
Qed.

Lemma year_index_fold_no_heading (lines : list text) (tab : text) (order : list text) :
  (forall line, In line lines -> startswith (strip line) (str "# ") = false) ->
  exists order',
    fold_left year_index_step lines (mk_yis false tab order) = mk_yis false tab order'.
Proof.
  revert order; induction lines as [|line lines IH]; intros order H; simpl;
    [eexists; reflexivity|].
  destruct (year_index_step_other tab order line) as [o Ho];
    [apply H; left; reflexivity|].
  rewrite Ho. apply IH. intros l Hl; apply H; right; exact Hl.
Qed.

(** X4.  The tab name of a year comes from the first heading line of its
    [index.md] alone (later heading lines never change it), and is the
    year folder name when the file has no heading line. *)
Theorem year_tab_name_first_heading (year_name : text) (pre post : list text) (h : text)
  (Hpre : forall line, In line pre -> startswith (strip line) (str "# ") = false) :
  fst (parse_year_index_lines year_name pre) = year_name /\
  (startswith (strip h) (str "# ") = true ->
   fst (parse_year_index_lines year_name (pre ++ h :: post)) =
     strip (lstrip_chars (str "# ") (strip h))).
Proof.
  assert (Hfst : forall lines, fst (parse_year_index_lines year_name lines) =
            yi_tab_name (fold_left year_index_step lines (mk_yis false year_name [])))
    by reflexivity.
  rewrite !Hfst.
  destruct (year_index_fold_no_heading pre year_name [] Hpre) as [o Ho].
  split; [rewrite Ho; reflexivity|].
  intros Hh. rewrite fold_left_app, Ho. cbn [fold_left].
  assert (Hs : year_index_step (mk_yis false year_name o) h =
               mk_yis true (strip (lstrip_chars (str "# ") (strip h))) o).
  { unfold year_index_step.
    cbn [yi_title_found yi_tab_name yi_subfolder_order negb andb].
    rewrite Hh. reflexivity. }
  rewrite Hs. apply year_index_fold_found.
Qed.

Lemma year_tab_name_first_heading_witness :
  let pre := [str "- [A](alphaTalk)"] in
  (forall line, In line pre -> startswith (strip line) (str "# ") = false) /\
  (fst (parse_year_index_lines (str "2025") pre) = str "2025" /\
   (startswith (strip (str "# GTOC 2025")) (str "# ") = true ->
    fst (parse_year_index_lines (str "2025") (pre ++ str "# GTOC 2025" :: [str "# Other"])) =
      strip (lstrip_chars (str "# ") (strip (str "# GTOC 2025"))))).
Proof.
  intros pre.
  assert (Hpre : forall line, In line pre -> startswith (strip line) (str "# ") = false).
  { intros line [<-|[]]. vm_compute. reflexivity. }
  split; [exact Hpre|].
  exact (year_tab_name_first_heading (str "2025") pre [str "# Other"] (str "# GTOC 2025") Hpre).
Defined.

(** ** [ORDER_LIST_PATTERN] *)

Lemma re_close_tail_cons (c : Z) (r : text) :
  re_close_tail (c :: r) = (c =? 41) && forallb isspace_char r.
Proof.
  destruct (Z.eqb_spec c 41) as [->|H]; [reflexivity|]. simpl.
  destruct c as [|p|p]; try reflexivity;
    repeat (destruct p as [p|p|]; try reflexivity);
    exfalso; apply H; reflexivity.
Qed.

Lemma forallb_space_close (t w : text) :
  forallb isspace_char (t ++ 41 :: w) = false.
Proof.
  induction t as [|c t IH]; simpl; [reflexivity|]. rewrite IH, andb_false_r.
  reflexivity.
Qed.

Lemma re_dot_no_newline (c : Z) (t : text) :
  ~ In 10 (c :: t) -> re_dot c = true.
Proof.
  intros Hn. unfold re_dot. destruct (Z.eqb_spec c 10) as [->|]; [|reflexivity].
  exfalso; apply Hn; left; reflexivity.
Qed.

Lemma re_group2_close (acc t w : text) :
  ~ In 10 t -> forallb isspace_char w = true ->
  re_group2 acc (t ++ 41 :: w) = Some (rev acc ++ t).
Proof.
  intros Hn Hw. revert acc; induction t as [|c t IH]; intros acc.
  - simpl. rewrite Hw, app_nil_r. reflexivity.
  - change (re_group2 acc ((c :: t) ++ 41 :: w)) with
      (if re_close_tail (c :: t ++ 41 :: w) then Some (rev acc)
       else if re_dot c then re_group2 (c :: acc) (t ++ 41 :: w) else None).
    rewrite re_close_tail_cons, forallb_space_close, andb_false_r.
    rewrite (re_dot_no_newline c t Hn).
    rewrite IH by (intros H; apply Hn; right; exact H).
    simpl. rewrite <- app_assoc. reflexivity.
Qed.

Lemma re_group1_close (acc l r : text) (g : text) :
  ~ In 10 l -> no_link_sep l -> re_group2 [] r = Some g ->
  re_group1 acc (l ++ 93 :: 40 :: r) = Some (rev acc ++ l, g).
Proof.
  intros Hn Hs Hg. revert acc; induction l as [|c l IH]; intros acc.
  - simpl. rewrite Hg, app_nil_r. reflexivity.
  - assert (Hm : match (c :: l) ++ 93 :: 40 :: r with
                 | 93 :: 40 :: r' => re_group2 [] r'
                 | _ => None end = None).
    { destruct (Z.eq_dec c 93) as [->|Hc].
      - destruct l as [|d l].
        + reflexivity.
        + destruct (Z.eq_dec d 40) as [->|Hd].
          * exfalso. apply Hs. exists [], l. reflexivity.
          * simpl. destruct d as [|p|p]; try reflexivity;
              repeat (destruct p as [p|p|]; try reflexivity);
              exfalso; apply Hd; reflexivity.
      - simpl. destruct c as [|p|p]; try reflexivity;
          repeat (destruct p as [p|p|]; try reflexivity);
          exfalso; apply Hc; reflexivity. }
    change (re_group1 acc ((c :: l) ++ 93 :: 40 :: r)) with
      (match match (c :: l) ++ 93 :: 40 :: r with
             | 93 :: 40 :: r' => re_group2 [] r'
             | _ => None end with
       | Some g2 => Some (rev acc, g2)
       | None => if re_dot c then re_group1 (c :: acc) (l ++ 93 :: 40 :: r)
                 else None
       end).
    rewrite Hm, (re_dot_no_newline c l Hn).
    rewrite IH.
    + simpl. rewrite <- app_assoc. reflexivity.
    + intros H; apply Hn; right; exact H.
    + intros [a [b Hab]]. apply Hs. exists (c :: a), b. rewrite Hab. reflexivity.
Qed.

Lemma lstrip_spaces (w r : text) :
  forallb isspace_char w = true -> lstrip (w ++ r) = lstrip r.
Proof.
  induction w as [|c w IH]; simpl; [reflexivity|].
  intros H. apply andb_prop in H as [Hc Hw]. rewrite Hc. apply IH, Hw.
Qed.

Lemma lstrip_decomp (s : text) :
  exists w, forallb isspace_char w = true /\ s = w ++ lstrip s.
Proof.
  induction s as [|c s IH]; simpl.
  - exists []. split; reflexivity.
  - destruct (isspace_char c) eqn:Hc.
    + destruct IH as [w [Hw He]]. exists (c :: w). simpl. rewrite Hc, Hw.
      split; [reflexivity|]. rewrite <- He. reflexivity.
    + exists []. split; reflexivity.
Qed.

Lemma re_group2_sound (acc r g : text) :
  re_group2 acc r = Some g ->
  exists t w, g = rev acc ++ t /\ r = t ++ 41 :: w /\
              forallb isspace_char w = true /\ ~ In 10 t.
Proof.
  revert acc; induction r as [|c r IH]; intros acc H.
  - discriminate H.
  - change (re_group2 acc (c :: r)) with
      (if re_close_tail (c :: r) then Some (rev acc)
       else if re_dot c then re_group2 (c :: acc) r else None) in H.
    rewrite re_close_tail_cons in H.
    destruct ((c =? 41) && forallb isspace_char r) eqn:Ht.
    + injection H as <-. apply andb_prop in Ht as [Hc Hr].
      apply Z.eqb_eq in Hc as ->.
      exists [], r. rewrite app_nil_r. repeat split; auto.
    + destruct (re_dot c) eqn:Hd; [|discriminate H].
      destruct (IH _ H) as [t [w [Hg [Hr [Hw Hn]]]]].
      exists (c :: t), w. repeat split; auto.
      * rewrite Hg. simpl. rewrite <- app_assoc. reflexivity.
      * rewrite Hr. reflexivity.
      * intros [H10|H10]; [|exact (Hn H10)].
        subst c. discriminate Hd.
Qed.

Lemma re_group1_sound (acc r l t : text) :
  re_group1 acc r = Some (l, t) ->
  exists l', l = rev acc ++ l' /\ ~ In 10 l' /\
    exists w, r = l' ++ 93 :: 40 :: t ++ 41 :: w /\
              forallb isspace_char w = true /\ ~ In 10 t.
Proof.
  revert acc; induction r as [|c r IH]; intros acc H.
  - discriminate H.
  - change (re_group1 acc (c :: r)) with
      (match match c :: r with
             | 93 :: 40 :: r' => re_group2 [] r'
             | _ => None end with
       | Some g2 => Some (rev acc, g2)
       | None => if re_dot c then re_group1 (c :: acc) r else None
       end) in H.
    destruct (match c :: r with
              | 93 :: 40 :: r' => re_group2 [] r'
              | _ => None end) as [g2|] eqn:Hm.
    + injection H as E1 E2. subst l g2.
      assert (Hc : c = 93 /\ exists r', r = 40 :: r' /\ re_group2 [] r' = Some t).
      { destruct c as [|p|p]; try discriminate Hm.
        repeat (destruct p as [p|p|]; try discriminate Hm).
        destruct r as [|d r]; [discriminate Hm|].
        destruct d as [|q|q]; try discriminate Hm.
        repeat (destruct q as [q|q|]; try discriminate Hm).
        split; [reflexivity|]. exists r. split; [reflexivity|exact Hm]. }
      destruct Hc as [-> [r' [-> Hg]]].
      destruct (re_group2_sound [] r' t Hg) as [t' [w [Ht [Hr [Hw Hn]]]]].
      simpl in Ht. subst t'.
      exists []. rewrite app_nil_r. repeat split; [intros []|].
      exists w. rewrite Hr. repeat split; assumption.
    + destruct (re_dot c) eqn:Hd; [|discriminate H].
      destruct (IH _ H) as [l' [Hl [Hn [w [Hr [Hw Ht]]]]]].
      exists (c :: l'). repeat split.
      * rewrite Hl. simpl. rewrite <- app_assoc. reflexivity.
      * intros [H10|H10]; [|exact (Hn H10)]. subst c. discriminate Hd.
      * exists w. rewrite Hr. repeat split; assumption.
Qed.

(** X5. A line [w1 - w2 [label](target) w3], with [w1], [w2], [w3] made of
    whitespace, [label] and [target] free of newlines and [label] free of
    the separator [](], is matched by [ORDER_LIST_PATTERN] with
    [group(1) = label] and [group(2) = target]. *)
Lemma order_list_match_link (w1 w2 w3 label target : text)
  (Hw1 : forallb isspace_char w1 = true)
  (Hw2 : forallb isspace_char w2 = true)
  (Hw3 : forallb isspace_char w3 = true)
  (Hl : ~ In 10 label) (Hs : no_link_sep label) (Ht : ~ In 10 target) :
  order_list_match
    (w1 ++ 45 :: w2 ++ 91 :: label ++ 93 :: 40 :: target ++ 41 :: w3)
  = Some (label, target).
Proof.
  unfold order_list_match. rewrite lstrip_spaces by exact Hw1. simpl.
  rewrite lstrip_spaces by exact Hw2. simpl.
  rewrite (re_group1_close [] label _ target Hl Hs).
  - reflexivity.
  - rewrite (re_group2_close [] target w3 Ht Hw3). reflexivity.
Qed.

(** X6. Conversely, every line matched by [ORDER_LIST_PATTERN] has the
    shape [w1 - w2 [group1](group2) w3] with whitespace [w1], [w2], [w3]
    and groups free of newlines. *)
Lemma order_list_match_shape (s label target : text)
  (H : order_list_match s = Some (label, target)) :
  exists w1 w2 w3,
    forallb isspace_char w1 = true /\ forallb isspace_char w2 = true /\
    forallb isspace_char w3 = true /\ ~ In 10 label /\ ~ In 10 target /\
    s = w1 ++ 45 :: w2 ++ 91 :: label ++ 93 :: 40 :: target ++ 41 :: w3.
Proof.
  unfold order_list_match in H.
  destruct (lstrip_decomp s) as [w1 [Hw1 Hs]].
  destruct (lstrip s) as [|c r] eqn:E1; [discriminate H|].
  destruct (Z.eq_dec c 45) as [->|Hc].
  2:{ exfalso. destruct c as [|p|p]; try discriminate H;
      repeat (destruct p as [p|p|]; try discriminate H); apply Hc; reflexivity. }
  destruct (lstrip_decomp r) as [w2 [Hw2 Hr]].
  destruct (lstrip r) as [|d r'] eqn:E2; [discriminate H|].
  destruct (Z.eq_dec d 91) as [->|Hd].
  2:{ exfalso. destruct d as [|p|p]; try discriminate H;
      repeat (destruct p as [p|p|]; try discriminate H); apply Hd; reflexivity. }
  destruct (re_group1_sound [] r' label target H)
    as [l' [Hl [Hn [w3 [Hr' [Hw3 Ht]]]]]].
  simpl in Hl. subst l'.
  exists w1, w2, w3. repeat split; try assumption.
  rewrite Hs, Hr, Hr'. reflexivity.
Qed.

Lemma order_list_match_link_witness :
  forallb isspace_char [32] = true /\ forallb isspace_char [32] = true /\
  forallb isspace_char [32; 9] = true /\ ~ In 10 (str "QEMU") /\
  no_link_sep (str "QEMU") /\ ~ In 10 (str "qemu") /\
  order_list_match
    ([32] ++ 45 :: [32] ++ 91 :: str "QEMU" ++ 93 :: 40 :: str "qemu" ++ 41 :: [32; 9])
  = Some (str "QEMU", str "qemu").
Proof.
  assert (Hl : ~ In 10 (str "QEMU")) by (simpl; lia).
  assert (Ht : ~ In 10 (str "qemu")) by (simpl; lia).
  assert (Hs : no_link_sep (str "QEMU")).
  { intros [a [b Hab]].
    destruct a as [|x1 [|x2 [|x3 [|x4 [|x5 a]]]]]; simpl in Hab; discriminate Hab. }
  refine (conj eq_refl (conj eq_refl (conj eq_refl (conj Hl (conj Hs (conj Ht _)))))).
  apply order_list_match_link; try reflexivity; assumption.
Defined.

Lemma order_list_match_shape_witness :
  order_list_match (str "- [QEMU](qemu)") = Some (str "QEMU", str "qemu") /\
  exists w1 w2 w3,
    forallb isspace_char w1 = true /\ forallb isspace_char w2 = true /\
    forallb isspace_char w3 = true /\ ~ In 10 (str "QEMU") /\
    ~ In 10 (str "qemu") /\
    str "- [QEMU](qemu)"
    = w1 ++ 45 :: w2 ++ 91 :: str "QEMU" ++ 93 :: 40 :: str "qemu" ++ 41 :: w3.
Proof.
  split; [reflexivity|].
  apply order_list_match_shape. reflexivity.
Defined.

(** ** [generate_html] *)

Lemma str_lt_irrefl (a : text) : str_lt a a = false.
Proof.
  induction a as [|x a IH]; simpl; [reflexivity|]. rewrite Z.ltb_irrefl. exact IH.
Qed.

Lemma str_lt_trans (a b c : text) :
  str_lt a b = true -> str_lt b c = true -> str_lt a c = true.
Proof.
  revert b c; induction a as [|x a IH]; intros [|y b] [|z c]; simpl;
    try discriminate; try reflexivity.
  destruct (x <? y) eqn:E1; destruct (y <? x) eqn:E2;
    destruct (y <? z) eqn:E3; destruct (z <? y) eqn:E4;
    destruct (x <? z) eqn:E5; destruct (z <? x) eqn:E6;
    rewrite ?Z.ltb_lt, ?Z.ltb_ge in *; intros H1 H2;
    try lia; try discriminate; try reflexivity.
  eapply IH; eassumption.
Qed.

Lemma str_lt_total (a b : text) : str_lt a b = false -> str_lt b a = false -> a = b.
Proof.
  revert b; induction a as [|x a IH]; intros [|y b]; simpl; intros H1 H2;
    try discriminate; try reflexivity.
  destruct (x <? y) eqn:E1; [discriminate|]. destruct (y <? x) eqn:E2; [discriminate|].
  rewrite Z.ltb_ge in E1, E2. f_equal; [lia|apply IH; assumption].
Qed.

Lemma str_le_trans (a b c : text) :
  str_le a b = true -> str_le b c = true -> str_le a c = true.
Proof.
  unfold str_le. intros H1 H2. apply negb_true_iff in H1, H2.
  destruct (str_lt c a) eqn:E; [|reflexivity]. exfalso.
  destruct (str_lt a b) eqn:E2.
  - rewrite (str_lt_trans c a b E E2) in H2. discriminate.
  - rewrite (str_lt_total a b E2 H1) in E. rewrite E in H2. discriminate.
Qed.

Lemma descending_head_max (x : text) (l : list text) :
  descending (x :: l) -> forall y, In y (x :: l) -> str_le y x = true.
Proof.
  intros Hs y Hy. apply Sorted_StronglySorted in Hs.
  - apply StronglySorted_inv in Hs as [_ Hf]. destruct Hy as [<-|Hy].
    + unfold str_le. rewrite str_lt_irrefl. reflexivity.
    + rewrite Forall_forall in Hf. apply Hf, Hy.
  - intros a b c H1 H2. exact (str_le_trans c b a H2 H1).
Qed.

Lemma map_insert_entry_desc (e : year_entry) (l : list year_entry) :
  map ye_folder (insert_entry_desc e l) = insert_sorted_desc (ye_folder e) (map ye_folder l).
Proof.
  induction l as [|e' l IH]; simpl; [reflexivity|].
  destruct (str_lt (ye_folder e) (ye_folder e')); simpl; [rewrite IH|]; reflexivity.
Qed.

Lemma map_sort_entries_desc (l : list year_entry) :
  map ye_folder (sort_entries_desc l) = py_sorted_desc (map ye_folder l).
Proof.
  induction l as [|e l IH]; simpl; [reflexivity|].
  rewrite map_insert_entry_desc, IH. reflexivity.
Qed.

Lemma insert_entry_desc_perm (e : year_entry) (l : list year_entry) :
  Permutation (insert_entry_desc e l) (e :: l).
Proof.
  induction l as [|e' l IH]; simpl; [reflexivity|].
  destruct (str_lt (ye_folder e) (ye_folder e')); [|reflexivity].
  rewrite IH. apply perm_swap.
Qed.

Lemma sort_entries_desc_perm (l : list year_entry) : Permutation (sort_entries_desc l) l.
Proof.
  induction l as [|e l IH]; simpl; [reflexivity|].
  rewrite insert_entry_desc_perm, IH. reflexivity.
Qed.

Lemma sort_entries_desc_nil (l : list year_entry) : sort_entries_desc l = [] <-> l = [].
Proof.
  split; [|intros ->; reflexivity].
  intros H. apply Permutation_nil. rewrite <- H. apply sort_entries_desc_perm.
Qed.

Lemma generate_html_some (year_data : list year_entry) (total_topics : Z) (p : page) :
  generate_html year_data total_topics = Some p ->
  exists first rest,
    sort_entries_desc year_data = first :: rest /\
    p = mk_page (map (make_button (ye_folder first)) (first :: rest))
                (map (make_content (ye_folder first)) (first :: rest))
                total_topics
                (fold_left (fun acc e => acc + Z.of_nat (List.length (ye_cards e)))
                   (first :: rest) 0).
Proof.
  unfold generate_html. destruct (sort_entries_desc year_data) as [|f r]; intros H;
    [discriminate H|].
  injection H as <-. exists f, r. split; reflexivity.
Qed.

Lemma fold_card_count (l : list year_entry) (a : Z) :
  fold_left (fun acc e => acc + Z.of_nat (List.length (ye_cards e))) l a =
    a + Z.of_nat (List.length (List.concat (map ye_cards l))).
Proof.
  revert a; induction l as [|e l IH]; intros a; simpl; [lia|].
  rewrite IH, length_app. lia.
Qed.

Lemma card_count_perm (l1 l2 : list year_entry) :
  Permutation l1 l2 ->
  List.length (List.concat (map ye_cards l1)) = List.length (List.concat (map ye_cards l2)).
Proof.
  induction 1; simpl; rewrite ?length_app; lia.
Qed.

Lemma card_items_length (idx : nat) (cards : list card) :
  List.length (card_items idx cards) = List.length cards.
Proof.
  revert idx; induction cards as [|[t c] cards IH]; intros idx; simpl; [reflexivity|].
  rewrite IH. reflexivity.
Qed.

Lemma card_items_nth (cards : list card) :
  forall idx i card_title card_content,
  nth_error cards i = Some (card_title, card_content) ->
  nth_error (card_items idx cards) i =
    Some (CardItem (idx + i) (card_icon card_title) card_title card_content).
Proof.
  induction cards as [|[t c] cards IH]; intros idx [|i] ct cc H; simpl in H |- *;
    try discriminate H.
  - injection H as <- <-. rewrite Nat.add_0_r. reflexivity.
  - rewrite (IH (S idx) i ct cc H). do 2 f_equal. lia.
Qed.

Lemma split_first_app (sep : Z) (a rest : text) :
  ~ In sep a -> split_first sep (a ++ sep :: rest) = split_first sep a.
Proof.
  induction a as [|c a IH]; intros H; simpl.
  - rewrite Z.eqb_refl. reflexivity.
  - destruct (Z.eqb_spec c sep) as [->|Hc].
    + exfalso. apply H. left. reflexivity.
    + rewrite IH; [reflexivity|]. intros Hin. apply H. right. exact Hin.
Qed.

Lemma generate_html_none_nil (year_data : list year_entry) (total_topics : Z) :
  generate_html year_data total_topics = None -> year_data = [].
Proof.
  unfold generate_html. intros H. apply sort_entries_desc_nil.
  destruct (sort_entries_desc year_data); [reflexivity|discriminate H].
Qed.

(** X9.  [generate_html] raises its [ValueError] exactly when it is given
    no year at all. *)
Theorem generate_html_fails_iff_empty (year_data : list year_entry) (total_topics : Z) :
  generate_html year_data total_topics = None <-> year_data = [].
Proof.
  rewrite <- sort_entries_desc_nil. unfold generate_html.
  destruct (sort_entries_desc year_data); split; intros H;
    try reflexivity; discriminate H.
Qed.

(** X10.  When the year folder names are distinct, the page marks exactly
    one tab button active and leaves exactly one tab content visible: the
    first of each, both for the same year, which is the greatest year name
    in string order. *)
Theorem generate_html_single_active_tab (year_data : list year_entry)
  (total_topics : Z) (p : page)
  (Hnd : NoDup (map ye_folder year_data))
  (Hp : generate_html year_data total_topics = Some p) :
  exists b bs c cs,
    page_buttons p = b :: bs /\ page_contents p = c :: cs /\
    button_active b = true /\ content_hidden c = false /\
    (forall b', In b' bs -> button_active b' = false) /\
    (forall c', In c' cs -> content_hidden c' = true) /\
    button_year b = content_year c /\
    In (button_year b) (map ye_folder year_data) /\
    (forall y, In y (map ye_folder year_data) -> str_le y (button_year b) = true).
Proof.
  destruct (generate_html_some _ _ _ Hp) as [f [r [Hs ->]]]. cbn [page_buttons page_contents].
  assert (Hperm : Permutation (map ye_folder (f :: r)) (map ye_folder year_data))
    by (rewrite <- Hs; apply Permutation_map, sort_entries_desc_perm).
  assert (Hnd' : NoDup (map ye_folder (f :: r)))
    by (apply (Permutation_NoDup (Permutation_sym Hperm)), Hnd).
  simpl in Hnd'. apply NoDup_cons_iff in Hnd' as [Hnot _].
  exists (make_button (ye_folder f) f), (map (make_button (ye_folder f)) r),
         (make_content (ye_folder f) f), (map (make_content (ye_folder f)) r).
  split; [reflexivity|]. split; [reflexivity|].
  unfold make_button, make_content; cbn [button_active content_hidden button_year content_year].
  rewrite text_eqb_refl.
  split; [reflexivity|]. split; [reflexivity|].
  split.
  { intros b' Hb. apply in_map_iff in Hb as [e [<- He]]. cbn [button_active].
    apply text_eqb_neq. intros Heq. apply Hnot. rewrite <- Heq. apply in_map, He. }
  split.
  { intros c' Hc. apply in_map_iff in Hc as [e [<- He]]. cbn [content_hidden].
    rewrite text_eqb_neq; [reflexivity|].
    intros Heq. apply Hnot. rewrite <- Heq. apply in_map, He. }
  split; [reflexivity|].
  split; [apply (Permutation_in _ Hperm); left; reflexivity|].
  intros y Hy. apply (Permutation_in _ (Permutation_sym Hperm)) in Hy.
  apply (descending_head_max (ye_folder f) (map ye_folder r)); [|exact Hy].
  change (ye_folder f :: map ye_folder r) with (map ye_folder (f :: r)).
  rewrite <- Hs, map_sort_entries_desc. apply py_sorted_desc_sorted.
Qed.

(** X11.  The tab buttons and the tab contents list every year once, in
    the same order: [sorted(..., reverse=True)] of the year folder names;
    each button is labelled with its year's tab name. *)
Theorem generate_html_tab_order (year_data : list year_entry)
  (total_topics : Z) (p : page)
  (Hp : generate_html year_data total_topics = Some p) :
  exists sorted_years,
    Permutation sorted_years year_data /\
    map ye_folder sorted_years = py_sorted_desc (map ye_folder year_data) /\
    descending (map ye_folder sorted_years) /\
    map button_year (page_buttons p) = map ye_folder sorted_years /\
    map button_label (page_buttons p) = map ye_tab_name sorted_years /\
    map content_year (page_contents p) = map ye_folder sorted_years.
Proof.
  destruct (generate_html_some _ _ _ Hp) as [f [r [Hs ->]]].
  exists (f :: r). rewrite <- Hs.
  split; [apply sort_entries_desc_perm|].
  split; [apply map_sort_entries_desc|].
  split; [rewrite map_sort_entries_desc; apply py_sorted_desc_sorted|].
  cbn [page_buttons page_contents]. rewrite Hs, !map_map.
  split; [reflexivity|]. split; reflexivity.
Qed.

(** X12.  Each tab content shows its year's cards in order, the card at
    position [i] carrying [idx = i] (so an animation delay of [i * 0.1]
    seconds) and the icon of its title; the empty-state placeholder appears
    exactly for a year without cards, as the only item. *)
Theorem generate_html_cards_in_order (year_data : list year_entry)
  (total_topics : Z) (p : page)
  (Hp : generate_html year_data total_topics = Some p) :
  forall c, In c (page_contents p) ->
  exists e, In e year_data /\ content_year c = ye_folder e /\
    (ye_cards e = [] <-> content_items c = [EmptyState (ye_folder e)]) /\
    (ye_cards e <> [] -> List.length (content_items c) = List.length (ye_cards e)) /\
    (forall i card_title card_content,
       nth_error (ye_cards e) i = Some (card_title, card_content) ->
       nth_error (content_items c) i =
         Some (CardItem i (card_icon card_title) card_title card_content)).
Proof.
  destruct (generate_html_some _ _ _ Hp) as [f [r [Hs ->]]]. cbn [page_contents].
  intros c Hc. apply in_map_iff in Hc as [e [<- He]].
  exists e. split.
  { apply (Permutation_in _ (sort_entries_desc_perm year_data)). rewrite Hs. exact He. }
  unfold make_content; cbn [content_year content_items].
  split; [reflexivity|].
  destruct (ye_cards e) as [|[t0 c0] cs] eqn:Ec.
  - split; [split; reflexivity|]. split; [intros H; contradiction|].
    intros [|i] ct cc H; discriminate H.
  - cbn [card_items].
    split; [split; intros H; discriminate H|].
    split.
    + intros _. change (List.length (card_items 0 ((t0, c0) :: cs)) =
                        List.length ((t0, c0) :: cs)).
      apply card_items_length.
    + intros i ct cc H.
      change (nth_error (card_items 0 ((t0, c0) :: cs)) i =
              Some (CardItem i (card_icon ct) ct cc)).
      pose proof (card_items_nth _ 0 i ct cc H) as Hn.
      rewrite Nat.add_0_l in Hn. exact Hn.
Qed.

(** X13.  The page shows the [total_topics] it was given, and as number
    of topic areas the number of cards over all years. *)
Theorem generate_html_counters (year_data : list year_entry)
  (total_topics : Z) (p : page)
  (Hp : generate_html year_data total_topics = Some p) :
  page_total_topics p = total_topics /\
  page_topic_areas p = Z.of_nat (List.length (List.concat (map ye_cards year_data))).
Proof.
  destruct (generate_html_some _ _ _ Hp) as [f [r [Hs ->]]].
  cbn [page_total_topics page_topic_areas]. split; [reflexivity|].
  rewrite fold_card_count, <- Hs, (card_count_perm _ _ (sort_entries_desc_perm year_data)).
  reflexivity.
Qed.

(** X15.  A card's icon depends only on the part of its title before the
    first ['/']; it is one of the three mapped icons or the default. *)
Theorem card_icon_prefix (a rest : text) (Ha : ~ In 47 a) :
  card_icon (a ++ 47 :: rest) = card_icon a /\
  In (card_icon a) [str "fa-server"; str "fa-linux"; str "fa-code"; str "fa-file-text-o"].
Proof.
  unfold card_icon. rewrite split_first_app by exact Ha. split; [reflexivity|].
  simpl. destruct (text_eqb _ (str "QEMU")); [left; reflexivity|].
  destruct (text_eqb _ (str "Kernel")); [right; left; reflexivity|].
  destruct (text_eqb _ (str "Compiler")); [right; right; left; reflexivity|].
  right; right; right; left; reflexivity.
Qed.

Lemma generate_html_sample_some :
  exists p, generate_html sample_years 3 = Some p.
Proof. eexists. vm_compute. reflexivity. Qed.

Lemma generate_html_single_active_tab_witness :
  NoDup (map ye_folder sample_years) /\
  exists p, generate_html sample_years 3 = Some p /\
  exists b bs c cs,
    page_buttons p = b :: bs /\ page_contents p = c :: cs /\
    button_active b = true /\ content_hidden c = false /\
    (forall b', In b' bs -> button_active b' = false) /\
    (forall c', In c' cs -> content_hidden c' = true) /\
    button_year b = content_year c /\
    In (button_year b) (map ye_folder sample_years) /\
    (forall y, In y (map ye_folder sample_years) -> str_le y (button_year b) = true).
Proof.
  assert (Hnd : NoDup (map ye_folder sample_years)) by (vm_compute; solve_nodup).
  split; [exact Hnd|].
  destruct generate_html_sample_some as [p Hp].
  exists p. split; [exact Hp|].
  exact (generate_html_single_active_tab sample_years 3 p Hnd Hp).
Defined.

Lemma generate_html_tab_order_witness :
  exists p, generate_html sample_years 3 = Some p /\
  exists sorted_years,
    Permutation sorted_years sample_years /\
    map ye_folder sorted_years = py_sorted_desc (map ye_folder sample_years) /\
    descending (map ye_folder sorted_years) /\
    map button_year (page_buttons p) = map ye_folder sorted_years /\
    map button_label (page_buttons p) = map ye_tab_name sorted_years /\
    map content_year (page_contents p) = map ye_folder sorted_years.
Proof.
  destruct generate_html_sample_some as [p Hp].
  exists p. split; [exact Hp|].
  exact (generate_html_tab_order sample_years 3 p Hp).
Defined.

Lemma generate_html_cards_in_order_witness :
  exists p, generate_html sample_years 3 = Some p /\
  forall c, In c (page_contents p) ->
  exists e, In e sample_years /\ content_year c = ye_folder e /\
    (ye_cards e = [] <-> content_items c = [EmptyState (ye_folder e)]) /\
    (ye_cards e <> [] -> List.length (content_items c) = List.length (ye_cards e)) /\
    (forall i card_title card_content,
       nth_error (ye_cards e) i = Some (card_title, card_content) ->
       nth_error (content_items c) i =
         Some (CardItem i (card_icon card_title) card_title card_content)).
Proof.
  destruct generate_html_sample_some as [p Hp].
  exists p. split; [exact Hp|].
  exact (generate_html_cards_in_order sample_years 3 p Hp).
Defined.

Lemma generate_html_counters_witness :
  exists p, generate_html sample_years 3 = Some p /\
  page_total_topics p = 3 /\
  page_topic_areas p = Z.of_nat (List.length (List.concat (map ye_cards sample_years))).
Proof.
  destruct generate_html_sample_some as [p Hp].
  exists p. split; [exact Hp|].
  exact (generate_html_counters sample_years 3 p Hp).
Defined.

Lemma card_icon_prefix_witness :
  ~ In 47 (str "QEMU ") /\
  card_icon (str "QEMU " ++ 47 :: str " intro") = card_icon (str "QEMU ") /\
  In (card_icon (str "QEMU "))
     [str "fa-server"; str "fa-linux"; str "fa-code"; str "fa-file-text-o"].
Proof.
  assert (Ha : ~ In 47 (str "QEMU ")) by (simpl; lia).
  split; [exact Ha|].
  exact (card_icon_prefix (str "QEMU ") (str " intro") Ha).
Defined.

(** ** The section and year loops of [main] *)

Lemma process_sections_step (markdown : text -> option text) (fs : fs_t)
  (input_dir year_name sf_name : text) (rest : list text) (cards : list card)
  (total : Z) (log : list diag) :
  process_sections markdown fs input_dir year_name (sf_name :: rest) cards total log =
    let '(c1, n1, l1) := section_outcome markdown fs input_dir year_name sf_name in
    process_sections markdown fs input_dir year_name rest
      (cards ++ c1) (total + n1) (log ++ l1).
Proof.
  simpl. unfold section_outcome.
  destruct (negb (path_exists fs _)).
  - rewrite app_nil_r, Z.add_0_r. reflexivity.
  - destruct (parse_md_file markdown fs _) as [[t c]|].
    + destruct (count_topics_in_md fs _). rewrite app_assoc. reflexivity.
    + rewrite app_nil_r, Z.add_0_r. reflexivity.
Qed.

Lemma count_topics_nonneg (fs : fs_t) (md_path : path) :
  0 <= fst (count_topics_in_md fs md_path).
Proof.
  unfold count_topics_in_md. destruct (read_lines fs md_path); simpl; lia.
Qed.

Lemma section_outcome_bounds (markdown : text -> option text) (fs : fs_t)
  (input_dir year_name sf_name : text) :
  (List.length (fst (fst (section_outcome markdown fs input_dir year_name sf_name))) <= 1)%nat /\
  0 <= snd (fst (section_outcome markdown fs input_dir year_name sf_name)).
Proof.
  unfold section_outcome.
  destruct (negb (path_exists fs _)); [simpl; split; lia|].
  destruct (parse_md_file markdown fs _) as [[t c]|]; [|simpl; split; lia].
  pose proof (count_topics_nonneg fs [input_dir; year_name; sf_name; index_md]) as Hn.
  destruct (count_topics_in_md fs _) as [n l]. simpl in Hn |- *. split; lia.
Qed.

Lemma process_sections_total_mono (markdown : text -> option text) (fs : fs_t)
  (input_dir year_name : text) (ordered : list text) :
  forall cards total log,
  total <= snd (fst (process_sections markdown fs input_dir year_name ordered cards total log)).
Proof.
  induction ordered as [|sf rest IH]; intros cards total log; [simpl; lia|].
  rewrite process_sections_step.
  pose proof (section_outcome_bounds markdown fs input_dir year_name sf) as [_ Hn].
  destruct (section_outcome markdown fs input_dir year_name sf) as [[c1 n1] l1].
  simpl in Hn. specialize (IH (cards ++ c1) (total + n1) (log ++ l1)). lia.
Qed.

(** X7.  The section loop of a year in closed form: it appends, in the
    order of [ordered_subfolders], each subfolder's card (at most one per
    subfolder), adds each subfolder's topic count to [total_topics] (so the
    total never decreases) and appends each subfolder's messages. *)
Theorem process_sections_closed_form (markdown : text -> option text) (fs : fs_t)
  (input_dir year_name : text) (ordered : list text) :
  forall cards total log,
  let r := process_sections markdown fs input_dir year_name ordered cards total log in
  let outcome := section_outcome markdown fs input_dir year_name in
  fst (fst r) = cards ++ flat_map (fun sf => fst (fst (outcome sf))) ordered /\
  snd (fst r) = total + fold_right Z.add 0 (map (fun sf => snd (fst (outcome sf))) ordered) /\
  snd r = log ++ flat_map (fun sf => snd (outcome sf)) ordered /\
  (List.length (fst (fst r)) <= List.length cards + List.length ordered)%nat /\
  total <= snd (fst r).
Proof.
  induction ordered as [|sf rest IH]; intros cards total log r outcome.
  - subst r. simpl. rewrite !app_nil_r. repeat split; lia.
  - subst r outcome. cbn [flat_map map fold_right List.length].
    rewrite process_sections_step.
    pose proof (section_outcome_bounds markdown fs input_dir year_name sf) as [Hc Hn].
    destruct (section_outcome markdown fs input_dir year_name sf) as [[c1 n1] l1].
    simpl in Hc, Hn. cbn [fst snd].
    destruct (IH (cards ++ c1) (total + n1) (log ++ l1)) as [H1 [H2 [H3 [H4 H5]]]].
    cbn zeta in H1, H2, H3, H4, H5.
    rewrite H1, H2, H3, !app_assoc. split; [reflexivity|]. split; [lia|].
    split; [reflexivity|]. split.
    + rewrite H1 in H4. eapply Nat.le_trans; [exact H4|]. rewrite length_app. lia.
    + rewrite H2 in H5. eapply Z.le_trans; [|exact H5]. lia.
Qed.

Lemma process_years_some (markdown : text -> option text) (fs : fs_t)
  (input_dir : text) (years : list text) :
  forall year_data total log log' year_data' total',
  process_years markdown fs input_dir years year_data total log =
    (log', Some (year_data', total')) ->
  exists new_entries,
    year_data' = year_data ++ new_entries /\ map ye_folder new_entries = years /\
    (forall e, In e new_entries ->
       (ye_tab_name e, ye_subfolder_order e) = fst (parse_year_index fs input_dir (ye_folder e))) /\
    total <= total'.
Proof.
  induction years as [|y ys IH]; intros year_data total log log' year_data' total' H.
  - simpl in H. injection H as _ <- <-. exists []. rewrite app_nil_r.
    repeat split; [intros e []|lia].
  - simpl in H. unfold process_year in H.
    destruct (parse_year_index fs input_dir y) as [[tab order] log1] eqn:Ep.
    destruct (scan_subfolders fs input_dir y) as [l|]; [|discriminate H].
    destruct (resolve_order y order l) as [ordered log2].
    pose proof (process_sections_total_mono markdown fs input_dir y ordered [] total []) as Hm.
    destruct (process_sections markdown fs input_dir y ordered [] total [])
      as [[cards t1] log3].
    simpl in Hm.
    destruct (IH _ _ _ _ _ _ H) as [new [Hd [Hf [Ht Hle]]]].
    exists (mk_year y tab order cards :: new). rewrite Hd, <- app_assoc.
    split; [reflexivity|]. split; [simpl; rewrite Hf; reflexivity|].
    split; [|lia].
    intros e [<-|He]; [simpl; rewrite Ep; reflexivity|apply Ht, He].
Qed.

(** X8.  When no year folder makes the run fail, the collected year data
    has one entry per year folder, in the order of [year_folders], each
    carrying the tab name and declared order that [parse_year_index]
    returns for that year; [total_topics] only grows. *)
Theorem process_years_entries (markdown : text -> option text) (fs : fs_t)
  (input_dir : text) (years : list text) (year_data : list year_entry)
  (total : Z) (log log' : list diag) (year_data' : list year_entry) (total' : Z)
  (H : process_years markdown fs input_dir years year_data total log =
         (log', Some (year_data', total'))) :
  exists new_entries,
    year_data' = year_data ++ new_entries /\ map ye_folder new_entries = years /\
    (forall e, In e new_entries ->
       (ye_tab_name e, ye_subfolder_order e) = fst (parse_year_index fs input_dir (ye_folder e))) /\
    total <= total'.
Proof. exact (process_years_some markdown fs input_dir years _ _ _ _ _ _ H). Qed.

Lemma py_sorted_desc_id (l : list text) : descending l -> py_sorted_desc l = l.
Proof.
  induction l as [|x l IH]; intros Hs; simpl; [reflexivity|].
  apply Sorted_inv in Hs as [Hs Hh]. rewrite IH by exact Hs.
  destruct l as [|y l]; [reflexivity|]. simpl.
  inversion Hh as [|b l0 Hxy]; subst. unfold str_le in Hxy.
  apply negb_true_iff in Hxy. rewrite Hxy. reflexivity.
Qed.

(** X14.  Whenever [main] reaches its final write, [generate_html] is
    given the data of at least one year, so its [ValueError] is never
    raised there; the page's tab buttons and tab contents then follow
    exactly the order of [get_year_folders], and the page shows the total
    topic count accumulated over all years. *)
Theorem main_write_page (markdown : text -> option text)
  (write_output : list year_entry -> Z -> bool) (fs : fs_t) (input_dir : text)
  (log : list diag) (o : run_outcome)
  (Hm : main markdown write_output fs input_dir = (log, o))
  (Ho : o <> Stopped /\ o <> Crashed) :
  exists year_folders year_data total_topics log0,
    get_year_folders fs input_dir = Some year_folders /\ year_folders <> [] /\
    process_years markdown fs input_dir year_folders [] 0 [] =
      (log0, Some (year_data, total_topics)) /\
    (o = OutputWritten year_data total_topics \/ o = OutputFailed) /\
    map ye_folder year_data = year_folders /\
    exists p, generate_html year_data total_topics = Some p /\
      map button_year (page_buttons p) = year_folders /\
      map content_year (page_contents p) = year_folders /\
      page_total_topics p = total_topics.
Proof.
  destruct Ho as [Hs Hc]. unfold main in Hm.
  destruct (negb (path_exists fs [input_dir])); [injection Hm as _ <-; contradiction|].
  destruct (get_year_folders fs input_dir) as [ys|] eqn:Eg; [|injection Hm as _ <-; contradiction].
  destruct ys as [|y ys']; [injection Hm as _ <-; contradiction|].
  destruct (process_years markdown fs input_dir (y :: ys') [] 0 []) as [log0 [[yd t]|]] eqn:Ep;
    [|injection Hm as _ <-; contradiction].
  destruct (process_years_some _ _ _ _ _ _ _ _ _ _ Ep) as [new [Hd [Hf _]]].
  simpl in Hd. subst new.
  exists (y :: ys'), yd, t, log0.
  split; [first [reflexivity|exact Eg]|]. split; [discriminate|].
  split; [first [reflexivity|exact Ep]|].
  split; [destruct (write_output yd t); injection Hm as _ <-; [left|right]; reflexivity|].
  split; [exact Hf|].
  assert (Hdesc : descending (y :: ys')).
  { unfold get_year_folders in Eg. destruct (fs [input_dir]) as [| |[names|]];
      try discriminate Eg.
    injection Eg as <-. apply py_sorted_desc_sorted. }
  destruct (generate_html yd t) as [p|] eqn:Eh.
  2:{ apply generate_html_none_nil in Eh. subst yd. discriminate Hf. }
  exists p. split; [reflexivity|].
  destruct (generate_html_some _ _ _ Eh) as [f [r [Hs' ->]]].
  cbn [page_buttons page_contents page_total_topics]. rewrite !map_map.
  assert (Hy : map ye_folder (f :: r) = y :: ys').
  { rewrite <- Hs', map_sort_entries_desc, Hf. apply py_sorted_desc_id, Hdesc. }
  split; [exact Hy|]. split; [exact Hy|reflexivity].
Qed.

Lemma main_write_page_witness :
  exists log o,
  main (fun t => Some t) (fun _ _ => true) sample_fs (str "docs") = (log, o) /\
  (o <> Stopped /\ o <> Crashed) /\
  exists year_folders year_data total_topics log0,
    get_year_folders sample_fs (str "docs") = Some year_folders /\ year_folders <> [] /\
    process_years (fun t => Some t) sample_fs (str "docs") year_folders [] 0 [] =
      (log0, Some (year_data, total_topics)) /\
    (o = OutputWritten year_data total_topics \/ o = OutputFailed) /\
    map ye_folder year_data = year_folders /\
    exists p, generate_html year_data total_topics = Some p /\
      map button_year (page_buttons p) = year_folders /\
      map content_year (page_contents p) = year_folders /\
      page_total_topics p = total_topics.
Proof.
  destruct (main (fun t => Some t) (fun _ _ => true) sample_fs (str "docs"))
    as [log o] eqn:Hm.
  assert (Ho : o <> Stopped /\ o <> Crashed).
  { vm_compute in Hm. injection Hm as _ <-. split; discriminate. }
  exists log, o. split; [reflexivity|]. split; [exact Ho|].
  exact (main_write_page (fun t => Some t) (fun _ _ => true) sample_fs (str "docs") _ _ Hm Ho).
Defined.

Lemma process_years_entries_witness :
  exists log' year_data' total',
  process_years (fun t => Some t) sample_fs (str "docs")
    (map str ["2025"; "2024"]%string) [] 0 [] = (log', Some (year_data', total')) /\
  exists new_entries,
    year_data' = [] ++ new_entries /\ map ye_folder new_entries = map str ["2025"; "2024"]%string /\
    (forall e, In e new_entries ->
       (ye_tab_name e, ye_subfolder_order e) =
         fst (parse_year_index sample_fs (str "docs") (ye_folder e))) /\
    0 <= total'.
Proof.
  destruct (process_years (fun t => Some t) sample_fs (str "docs")
              (map str ["2025"; "2024"]%string) [] 0 []) as [lg [[yd t]|]] eqn:H.
  - exists lg, yd, t. split; [reflexivity|].
    exact (process_years_entries (fun t => Some t) sample_fs (str "docs") _ [] 0 [] lg yd t H).
  - exfalso. vm_compute in H. discriminate H.
Defined.

(** ** Names collected by [parse_year_index] *)

Lemma lstrip_head (s : text) :
  forall c r, lstrip s = c :: r -> isspace_char c = false.
Proof.
  induction s as [|x s IH]; simpl; intros c r H; [discriminate H|].
  destruct (isspace_char x) eqn:Ex; [exact (IH c r H)|].
  injection H as <- _. exact Ex.
Qed.

Lemma lstrip_id (s : text) :
  (forall c r, s = c :: r -> isspace_char c = false) -> lstrip s = s.
Proof.
  destruct s as [|c r]; intros H; simpl; [reflexivity|].
  rewrite (H c r eq_refl). reflexivity.
Qed.

Lemma strip_idem (s : text) : strip (strip s) = strip s.
Proof.
  unfold strip, rstrip.
  set (u := lstrip s). set (v := lstrip (rev u)).
  assert (Hu : forall c r, u = c :: r -> isspace_char c = false) by apply lstrip_head.
  assert (Hv : forall c r, v = c :: r -> isspace_char c = false) by apply lstrip_head.
  destruct (lstrip_decomp (rev u)) as [w [_ Hw]]. fold v in Hw.
  assert (Hrv : forall c r, rev v = c :: r -> isspace_char c = false).
  { intros c r Hc. apply (Hu c (r ++ rev w)).
    rewrite <- (rev_involutive u), Hw, rev_app_distr, Hc. reflexivity. }
  rewrite (lstrip_id (rev v) Hrv), rev_involutive, (lstrip_id v Hv). reflexivity.
Qed.

Lemma year_index_step_names (st : year_index_state) (line : text) :
  (forall e, In e (yi_subfolder_order st) -> e <> [] /\ strip e = e) ->
  forall e, In e (yi_subfolder_order (year_index_step st line)) -> e <> [] /\ strip e = e.
Proof.
  intros H. unfold year_index_step.
  destruct (negb (yi_title_found st) && startswith (strip line) (str "# ")); [exact H|].
  destruct (order_list_match (strip line)) as [[g1 g2]|]; [|exact H].
  destruct (strip g2) as [|c r] eqn:Eg; [exact H|].
  cbn [yi_subfolder_order]. intros e He. apply in_app_or in He as [He|[<-|[]]].
  - apply H, He.
  - split; [discriminate|]. rewrite <- Eg. apply strip_idem.
Qed.

Lemma year_index_fold_names (lines : list text) :
  forall st,
  (forall e, In e (yi_subfolder_order st) -> e <> [] /\ strip e = e) ->
  forall e, In e (yi_subfolder_order (fold_left year_index_step lines st)) ->
    e <> [] /\ strip e = e.
Proof.
  induction lines as [|line lines IH]; intros st H; simpl; [exact H|].
  apply IH, year_index_step_names, H.
Qed.

(** X16.  Every subfolder name that [parse_year_index] returns as declared
    order is non-empty and has no surrounding whitespace: the link target
    is stripped and an empty one is dropped. *)
Theorem parse_year_index_names_stripped (fs : fs_t) (input_dir year_name e : text)
  (He : In e (snd (fst (parse_year_index fs input_dir year_name)))) :
  e <> [] /\ strip e = e.
Proof.
  unfold parse_year_index in He.
  destruct (negb (path_exists fs _)); [destruct He|].
  destruct (read_lines fs _) as [lines|]; [|destruct He].
  unfold parse_year_index_lines in He. cbn [fst snd] in He.
  apply (proj1 (dict_fromkeys_In _ _)) in He.
  exact (year_index_fold_names lines (mk_yis false year_name []) (fun _ H => False_ind _ H) e He).
Qed.

Lemma parse_year_index_names_stripped_witness :
  In (str "kernel") (snd (fst (parse_year_index sample_fs (str "docs") (str "2025")))) /\
  str "kernel" <> [] /\ strip (str "kernel") = str "kernel".
Proof.
  assert (He : In (str "kernel") (snd (fst (parse_year_index sample_fs (str "docs") (str "2025")))))
    by (vm_compute; left; reflexivity).
  split; [exact He|].
  exact (parse_year_index_names_stripped sample_fs (str "docs") (str "2025") (str "kernel") He).
Defined.
